(** * ARIA Radiology Workbench backend: a shallow embedding of
      [backend/main.py] and the properties of its documented contract.

    The service keeps two pieces of state: the SQLite database (five tables)
    and the in-memory [SESSIONS] dictionary.  Tables are modelled as lists of
    rows in insertion order, with the PRIMARY KEY and UNIQUE constraints of
    the schema checked on insertion; [SESSIONS] is a finite map.  Everything
    the handlers obtain from outside the process (random numbers, UUIDs, the
    clock, the JSON serialiser, the language-model provider) is read from a
    [world] record. *)

From Stdlib Require Import ZArith Lia List String Ascii.
From stdpp Require Import base option list strings gmap sorting pretty.

(* ================================================================= *)
(** ** Text: the string operations the handlers rely on *)

(** Python [str] and SQLite TEXT values are modelled as byte strings (the
    UTF-8 encoding of the text). *)
Module Text.

(** [needle in hay] *)
Fixpoint contains (needle hay : string) : bool :=
  String.prefix needle hay ||
  match hay with
  | EmptyString => false
  | String _ rest => contains needle rest
  end.

(** [s.split(sep)] for a non-empty [sep]: pieces between successive
    non-overlapping occurrences of [sep], scanning left to right.  [skip]
    counts the bytes of a matched separator still to be passed over and
    [cur] is the current piece, reversed. *)
Fixpoint split_go (sep : string) (skip : nat) (cur : string) (s : string)
  : list string :=
  match s with
  | EmptyString => [String.rev cur]
  | String c rest =>
      match skip with
      | S k => split_go sep k cur rest
      | O =>
          if String.prefix sep s
          then String.rev cur :: split_go sep (String.length sep - 1) EmptyString rest
          else split_go sep O (String c cur) rest
      end
  end.

Definition split (sep s : string) : list string := split_go sep 0 EmptyString s.

(** whitespace removed by [str.strip()] (the ASCII part of it) *)
Definition is_space (c : ascii) : bool :=
  let n := nat_of_ascii c in
  (n =? 32)%nat || ((9 <=? n)%nat && (n <=? 13)%nat) || ((28 <=? n)%nat && (n <=? 31)%nat).

Fixpoint lstrip (s : string) : string :=
  match s with
  | EmptyString => EmptyString
  | String c rest => if is_space c then lstrip rest else s
  end.

Definition strip (s : string) : string :=
  String.rev (lstrip (String.rev (lstrip s))).

(** SQLite's [LIKE]: [%] matches any run of characters, [_] one character
    (one UTF-8 sequence), every other byte matches itself, ASCII letters
    without regard to case. *)
Definition fold_case (c : ascii) : ascii :=
  let n := nat_of_ascii c in
  if (65 <=? n)%nat && (n <=? 90)%nat then ascii_of_nat (n + 32) else c.

Fixpoint skip_continuation (s : string) : string :=
  match s with
  | EmptyString => EmptyString
  | String c rest =>
      let n := nat_of_ascii c in
      if (128 <=? n)%nat && (n <? 192)%nat then skip_continuation rest else s
  end.

Fixpoint like (pat s : string) : bool :=
  match pat with
  | EmptyString => match s with EmptyString => true | _ => false end
  | String c pat' =>
      if Ascii.eqb c "%" then
        (fix any (s : string) : bool :=
           like pat' s ||
           match s with
           | EmptyString => false
           | String _ rest => any rest
           end) s
      else if Ascii.eqb c "_" then
        match s with
        | EmptyString => false
        | String d rest =>
            like pat' (if (192 <=? nat_of_ascii d)%nat then skip_continuation rest else rest)
        end
      else
        match s with
        | EmptyString => false
        | String d rest => Ascii.eqb (fold_case c) (fold_case d) && like pat' rest
        end
  end.

(** descending/ascending comparisons of TEXT values use the byte order *)
Definition leb (a b : string) : bool := String.leb a b.

End Text.

(* ================================================================= *)
(** ** Storage layer: the five tables of [init_db] *)

Module Patient.
Record row := {
  patient_id : string; mrn : string; first_name : string; last_name : string;
  dob : string; sex : string; phone : string; allergies : string;
  alerts : string; infection_flags : string }.
End Patient.

Module Order.
Record row := {
  order_id : string; patient_id : string; ordering_clinician : string;
  ordering_location : string; indication : string; priority : string;
  status : string; created_at : string }.
End Order.

Module Study.
Record row := {
  study_id : string; patient_id : string; order_id : string;
  modality : string; description : string; body_part : string;
  scheduled_time : string; acquisition_time : string; accession : string;
  report_status : string; critical_flag : Z; pacs_status : string }.
End Study.

Module Series.
Record row := {
  series_id : string; study_id : string; series_number : Z;
  series_description : string }.
End Series.

Module Report.
Record row := {
  report_id : string; study_id : string; author : string;
  created_at : string; updated_at : string;
  indication : string; technique : string; findings : string;
  impression : string; sign_status : string; addenda : string }.
End Report.

Record database := {
  patients : list Patient.row;
  orders : list Order.row;
  studies : list Study.row;
  series : list Series.row;
  reports : list Report.row }.

Definition empty_db : database :=
  {| patients := []; orders := []; studies := []; series := []; reports := [] |}.

(** [INSERT INTO t VALUES (...)]: [None] is sqlite3's IntegrityError, raised
    when the PRIMARY KEY (or, for patients, the UNIQUE mrn) is taken. *)
Definition insert_patient (r : Patient.row) (d : database) : option database :=
  if bool_decide (Patient.patient_id r ∈ Patient.patient_id <$> patients d)
     || bool_decide (Patient.mrn r ∈ Patient.mrn <$> patients d)
  then None
  else Some {| patients := patients d ++ [r]; orders := orders d;
               studies := studies d; series := series d; reports := reports d |}.

Definition insert_order (r : Order.row) (d : database) : option database :=
  if bool_decide (Order.order_id r ∈ Order.order_id <$> orders d) then None
  else Some {| patients := patients d; orders := orders d ++ [r];
               studies := studies d; series := series d; reports := reports d |}.

Definition insert_study (r : Study.row) (d : database) : option database :=
  if bool_decide (Study.study_id r ∈ Study.study_id <$> studies d) then None
  else Some {| patients := patients d; orders := orders d;
               studies := studies d ++ [r]; series := series d; reports := reports d |}.

Definition insert_series (r : Series.row) (d : database) : option database :=
  if bool_decide (Series.series_id r ∈ Series.series_id <$> series d) then None
  else Some {| patients := patients d; orders := orders d;
               studies := studies d; series := series d ++ [r]; reports := reports d |}.

Definition insert_report (r : Report.row) (d : database) : option database :=
  if bool_decide (Report.report_id r ∈ Report.report_id <$> reports d) then None
  else Some {| patients := patients d; orders := orders d;
               studies := studies d; series := series d; reports := reports d ++ [r] |}.

(** [ORDER BY]: the rows sorted by a total preorder given as a boolean test. *)
Definition order_by {A : Type} (le : A → A → bool) (l : list A) : list A :=
  merge_sort (λ a b, Is_true (le a b)) l.

(** [LIMIT limit OFFSET offset]: a negative limit means no limit, a negative
    offset means none. *)
Definition limit_offset {A : Type} (limit offset : Z) (l : list A) : list A :=
  let rest := drop (Z.to_nat offset) l in
  if (limit <? 0)%Z then rest else take (Z.to_nat limit) rest.

(* ================================================================= *)
(** ** Request bodies *)

(** A JSON object received in a request body or an uploaded file is a
    dictionary from keys to scalars.  Every column such a scalar is stored in
    is declared TEXT, so a number that sqlite3 can bind (see [bindable]) is
    stored as its decimal text. *)
Inductive jval :=
  | JStr (s : string)
  | JInt (n : Z).

Definition to_text (v : jval) : string :=
  match v with
  | JStr s => s
  | JInt n => pretty n
  end.

(** [data.get(key, dflt)] read as text *)
Definition get_text (data : gmap string jval) (key dflt : string) : string :=
  default dflt (to_text <$> data !! key).

(** [data.get(key, dflt)] as the value handed to [db.execute] *)
Definition get_value (data : gmap string jval) (key dflt : string) : jval :=
  default (JStr dflt) (data !! key).

(** sqlite3 binds a Python [int] as a signed 64-bit INTEGER; an [int]
    outside that range raises OverflowError when the statement's parameters
    are bound, before the statement runs. *)
Definition sqlite_int (n : Z) : bool :=
  (- 2 ^ 63 <=? n)%Z && (n <? 2 ^ 63)%Z.

Definition bindable (v : jval) : bool :=
  match v with
  | JStr _ => true
  | JInt n => sqlite_int n
  end.

(** [db.execute(sql, params)] with request values among its parameters:
    the statement [ins] runs when every one of them can be bound, and the
    call raises otherwise *)
Definition bound (params : list jval) (ins : database → option database)
  : database → option database :=
  if forallb bindable params then ins else λ _, None.

(** the five values [create_report] and [update_report] take from the body
    with [data.get] *)
Definition report_params (data : gmap string jval) : list jval :=
  [ get_value data "indication" ""; get_value data "technique" "";
    get_value data "findings" ""; get_value data "impression" "";
    get_value data "sign_status" "Draft" ].

(** the five values [import_data] takes from a row with [row.get]; [mrn] is
    the default MRN computed for the row *)
Definition import_params (row : gmap string jval) (mrn : string) : list jval :=
  [ get_value row "mrn" mrn; get_value row "first_name" "Unknown";
    get_value row "last_name" "Unknown"; get_value row "dob" "1970-01-01";
    get_value row "sex" "U" ].

(* ================================================================= *)
(** ** Process state, errors and the outside world *)

(** [SESSIONS] maps a token to its username; entries are put there by
    [login] and taken out by [logout]. *)
Record state := {
  db : database;
  SESSIONS : gmap string string }.

(** The conditions a handler can end in: HTTP 401, 404, 400 and 500 (an
    exception nobody catches). *)
Inductive error := Unauthorized | NotFound | BadRequest | ServerError.

(** What one request reads from outside the process.  [entropy k] and
    [uuid4 k] are the results of the [k]-th call that consumes randomness;
    [strftime_ago d h] is [datetime.now() - timedelta(days=d, hours=h)]
    printed as [%Y-%m-%d %H:%M]; [date_ago n] is [date.today()] minus [n]
    days printed as [%Y-%m-%d].  The provider calls answer [inr] with the
    payload or [inl] with the text of the exception they raised. *)
Record world := {
  entropy : nat → Z;
  uuid4 : nat → string;
  strftime_ago : Z → Z → string;
  date_ago : Z → string;
  json_dumps : list string → string;
  chat_completions : string → list (string * string) → Z → string + string;
  transcriptions : string → string → string → string + string;
  speech : string → string → string → string + string }.

(* ================================================================= *)
(** ** The generator's tables *)

Definition FIRST_NAMES_F : list string :=
  [ "Sarah"; "Emma"; "Olivia"; "Amara"; "Priya"; "Fatima"; "Grace";
    "Charlotte"; "Ava"; "Zara"; "Diane"; "Helen"; "Margaret"; "Aisha"; "Mei";
    "Rosa"; "Ingrid"; "Clare"; "Patricia"; "Nadia" ].

Definition FIRST_NAMES_M : list string :=
  [ "James"; "Mohammed"; "David"; "Oliver"; "Liam"; "Ethan"; "George";
    "Daniel"; "Kwame"; "Ahmed"; "Robert"; "Michael"; "Thomas"; "Samuel";
    "Rajan"; "Tariq"; "Patrick"; "Leon"; "Victor"; "Hugo" ].

Definition LAST_NAMES : list string :=
  [ "Smith"; "Johnson"; "Williams"; "Brown"; "Jones"; "Taylor"; "Davies";
    "Wilson"; "Evans"; "Thomas"; "Roberts"; "Walker"; "White"; "Hall";
    "Martin"; "Ahmed"; "Khan"; "Patel"; "Singh"; "Okafor"; "Chen"; "Kim";
    "Müller"; "Rossi"; "Garcia"; "Dubois"; "Andersen"; "Kowalski";
    "Ferreira"; "Nguyen" ].

Definition CLINICIANS : list string :=
  [ "Dr. A. Patel"; "Dr. S. Rahman"; "Dr. K. Obi"; "Dr. L. Chen";
    "Dr. M. Kowalski"; "Dr. F. Adeyemi"; "Dr. R. Singh"; "Dr. T. Williams";
    "Dr. E. Johansson"; "Dr. N. Mwangi" ].

Definition LOCATIONS : list string :=
  [ "Emergency Department"; "Cardiology"; "Neurology"; "Oncology";
    "General Medicine"; "ICU"; "Orthopaedics"; "Gastroenterology";
    "Respiratory"; "Vascular Surgery" ].

Definition ALLERGIES_POOL : list string :=
  [ "Penicillin"; "Aspirin"; "Ibuprofen"; "Contrast media"; "Latex";
    "Morphine"; "Codeine"; "Sulfonamides"; "None known" ].

Definition ALERTS_POOL : list string :=
  [ "Fall risk"; "DNACPR"; "Infection control"; "Bariatric";
    "Implanted device"; "Pregnancy — confirm"; "Renal impairment";
    "Contrast caution" ].

Definition STUDY_TEMPLATES : list (string * string * string * string) :=
  [ ("CT", "Head",
     "CT Head without contrast — query intracranial haemorrhage", "Urgent");
    ("CT", "Chest",
     "CT Pulmonary Angiography — query pulmonary embolism", "Urgent");
    ("CT", "Abdomen",
     "CT Abdomen/Pelvis with contrast — query appendicitis", "Urgent");
    ("CT", "Chest",
     "CT Chest — query lung malignancy", "Routine");
    ("CT", "Head",
     "CT Head with contrast — query brain metastases", "Routine");
    ("CT", "Spine",
     "CT Spine — query cord compression", "Urgent");
    ("CT", "Abdomen",
     "CT Abdomen — query aortic aneurysm", "Emergency");
    ("CT", "Chest",
     "CT Chest — staging non-small cell lung cancer", "Routine");
    ("CT", "Head",
     "CT Head — query subdural haematoma", "Emergency");
    ("CT", "Abdomen",
     "CT Abdomen — post-operative review", "Routine");
    ("MRI", "Brain",
     "MRI Brain with/without contrast — seizures", "Urgent");
    ("MRI", "Brain",
     "MRI Brain — query demyelination / MS", "Routine");
    ("MRI", "Spine",
     "MRI Lumbar Spine — radiculopathy", "Routine");
    ("MRI", "Cardiac",
     "MRI Cardiac — query cardiomyopathy", "Routine");
    ("MRI", "Brain",
     "MRI Brain — query acute stroke", "Emergency");
    ("MRI", "Abdomen",
     "MRI Liver — query hepatocellular carcinoma", "Routine");
    ("MRI", "Pelvis",
     "MRI Pelvis — staging rectal cancer", "Routine");
    ("MRI", "Knee",
     "MRI Knee — query meniscal tear", "Routine");
    ("XR", "Chest",
     "Chest X-ray — shortness of breath", "Urgent");
    ("XR", "Chest",
     "Chest X-ray — query pneumonia", "Urgent");
    ("XR", "Chest",
     "Chest X-ray — query pneumothorax", "Emergency");
    ("XR", "Chest",
     "Chest X-ray — routine post-procedure", "Routine");
    ("XR", "Abdomen",
     "Abdominal X-ray — query obstruction", "Urgent");
    ("XR", "MSK",
     "X-ray Hip — query fracture", "Urgent");
    ("XR", "MSK",
     "X-ray Wrist — post-trauma", "Routine");
    ("US", "Abdomen",
     "Ultrasound Abdomen — right upper quadrant pain", "Urgent");
    ("US", "Pelvis",
     "Ultrasound Pelvis — pelvic pain", "Routine");
    ("US", "Neck",
     "Ultrasound Thyroid — query nodule", "Routine");
    ("US", "Vascular",
     "Ultrasound Duplex — query DVT", "Urgent");
    ("US", "Abdomen",
     "Ultrasound Liver — abnormal LFTs", "Routine");
    ("NM", "Chest",
     "Nuclear Medicine V/Q Scan — query PE", "Urgent");
    ("NM", "Bone",
     "Nuclear Medicine Bone Scan — staging", "Routine");
    ("NM", "Cardiac",
     "Nuclear Medicine Myocardial Perfusion — angina", "Routine") ].

Definition CRITICAL_FINDINGS : list string :=
  [ "Acute large vessel occlusion — immediate stroke team activation required";
    "Massive pulmonary embolism with right heart strain — urgent cardiology review";
    "Acute aortic dissection type A — immediate cardiothoracic surgery referral";
    "Tension pneumothorax — immediate decompression required";
    "Acute subdural haematoma with midline shift — urgent neurosurgical review";
    "Ruptured abdominal aortic aneurysm — immediate vascular surgery";
    "Cord compression at C4 — immediate neurosurgical referral";
    "New intracranial haemorrhage — neurosurgical review required" ].

Definition REPORT_FINDINGS : list (string * list string) :=
  [ ("CT",
     [ "No acute intracranial abnormality identified. No haemorrhage, mass effect or midline shift. Ventricles and sulci appear normal for age.";
       "There is evidence of a focal consolidative change in the right lower lobe consistent with pneumonia. No pleural effusion. Mediastinum normal.";
       "Filling defect identified within the right main pulmonary artery consistent with acute pulmonary embolism. Evidence of right heart strain." ]);
    ("MRI",
     [ "Multiple periventricular and juxtacortical T2/FLAIR hyperintense lesions identified, the morphology and distribution of which is consistent with demyelinating disease.";
       "No restricted diffusion to suggest acute infarction. No haemorrhage or mass lesion. Background white matter changes consistent with small vessel disease.";
       "Large heterogeneous hepatic lesion in segment 6/7 measuring 4.2 x 3.8cm. Enhancement pattern is consistent with hepatocellular carcinoma." ]);
    ("XR",
     [ "Heart size is at the upper limit of normal. Lung fields are clear. No pleural effusion or pneumothorax. Bony structures intact.";
       "Increased opacification in the left lower zone consistent with consolidation or collapse. Clinical correlation advised.";
       "Gas pattern within normal limits. No evidence of obstruction or perforation. No abnormal calcification." ]);
    ("US",
     [ "The liver is of normal size and echotexture. No focal lesion identified. Gallbladder wall not thickened. No pericholecystic fluid. CBD measures 4mm.";
       "The right common femoral vein is non-compressible with absent flow on colour Doppler, findings consistent with acute deep vein thrombosis.";
       "Normal sized uterus and ovaries. No adnexal mass or free fluid. Endometrial thickness 6mm." ]);
    ("NM",
     [ "Matched ventilation/perfusion defects in the right lower lobe. Low probability for pulmonary embolism.";
       "Increased tracer uptake in multiple vertebral bodies and the right 5th rib, findings consistent with widespread bony metastatic disease." ]) ].

(** [REPORT_FINDINGS.get(modality, REPORT_FINDINGS["XR"])] *)
Definition findings_pool (modality : string) : list string :=
  let table : gmap string (list string) := list_to_map REPORT_FINDINGS in
  default (default [] (table !! "XR")) (table !! modality).

(** the text put in front of the critical finding chosen for a report *)
Definition CRITICAL_MARKER : string := "

⚠ CRITICAL FINDING: ".

(** the indication of a generated order:
    [tmpl[2].split('—')[-1].strip() if '—' in tmpl[2] else tmpl[1]] *)
Definition order_indication (body_part description : string) : string :=
  "Query " +:+
  (if Text.contains "—" description
   then Text.strip (List.last (Text.split "—" description) EmptyString)
   else body_part).

(* ================================================================= *)
(** ** Randomised, database-writing computations *)

(** The generator and the importer run statements against an open
    connection while drawing random values.  [cursor] counts the draws made
    so far, [conn] is the database as the connection sees it (uncommitted
    writes included).  [None] is an exception propagating out. *)
Record gen_state := { cursor : nat; conn : database }.

Definition G (A : Type) : Type := gen_state → option (A * gen_state).

#[global] Instance G_ret : MRet G := λ A x s, Some (x, s).
#[global] Instance G_bind : MBind G := λ A B f m s,
  match m s with
  | Some (a, s') => f a s'
  | None => None
  end.

Definition raise {A : Type} : G A := λ _, None.

(** [for x in xs: body(x)] *)
Fixpoint for_each {A : Type} (xs : list A) (body : A → G unit) : G unit :=
  match xs with
  | [] => mret tt
  | x :: rest => _ ← body x; for_each rest body
  end.

(** a loop that updates local variables [acc] on each of its [n] rounds *)
Fixpoint for_range {S : Type} (n : nat) (body : S → G S) (acc : S) : G S :=
  match n with
  | O => mret acc
  | Datatypes.S n' => acc' ← body acc; for_range n' body acc'
  end.

(** [db.execute("INSERT ...")] outside any [try] *)
Definition execute (ins : database → option database) : G unit := λ s,
  match ins (conn s) with
  | Some d => Some (tt, {| cursor := cursor s; conn := d |})
  | None => None
  end.

(** [try: db.execute("INSERT ..."); ok = True  except: ok = False] *)
Definition try_execute (ins : database → option database) : G bool := λ s,
  match ins (conn s) with
  | Some d => Some (true, {| cursor := cursor s; conn := d |})
  | None => Some (false, s)
  end.

Section Random.
Variable w : world.

Definition draw : G Z := λ s,
  Some (entropy w (cursor s), {| cursor := S (cursor s); conn := conn s |}).

(** [str(uuid.uuid4())] *)
Definition uuid : G string := λ s,
  Some (uuid4 w (cursor s), {| cursor := S (cursor s); conn := conn s |}).

(** [random.randint(a, b)]: ValueError on an empty range *)
Definition randint (a b : Z) : G Z :=
  if (b <? a)%Z then raise
  else x ← draw; mret (a + x `mod` (b - a + 1))%Z.

(** [random.choice(l)]: IndexError on an empty list *)
Definition choice {A : Type} (l : list A) : G A :=
  x ← draw;
  match l !! Z.to_nat (x `mod` Z.of_nat (length l)) with
  | Some v => mret v
  | None => raise
  end.

(** [random.random()]: the float k / 2^53, given by its numerator k *)
Definition random : G Z := x ← draw; mret (x `mod` 2 ^ 53)%Z.

(** [k] picks without replacement *)
Fixpoint sample_n {A : Type} (k : nat) (l : list A) : G (list A) :=
  match k with
  | O => mret []
  | Datatypes.S k' =>
      x ← draw;
      let i := Z.to_nat (x `mod` Z.of_nat (length l)) in
      match l !! i with
      | Some v => rest ← sample_n k' (delete i l); mret (v :: rest)
      | None => raise
      end
  end.

(** [random.sample(l, k=k)]: ValueError when [k] is negative or exceeds
    the population *)
Definition sample {A : Type} (l : list A) (k : Z) : G (list A) :=
  if (k <? 0)%Z || (Z.of_nat (length l) <? k)%Z then raise
  else sample_n (Z.to_nat k) l.

Definition random_dob : G string :=
  age ← randint 18 90;
  d ← randint 0 364;
  mret (date_ago w (age * 365 + d)).

Definition random_time (days_back : Z) : G string :=
  h ← randint 0 12;
  mret (strftime_ago w days_back h).

End Random.

(* ================================================================= *)
(** ** Synthetic data generator *)

Section Generator.
Variable w : world.

(** one round of [for sn in range(1, n_series+1)] *)
Definition gen_series (sid : string) (sn : Z) : G unit :=
  series_id ← uuid w;
  plane ← choice w ["Axial"; "Sagittal"; "Coronal"; "MIP"; "Scout"];
  execute (insert_series
    {| Series.series_id := series_id; Series.study_id := sid;
       Series.series_number := sn;
       Series.series_description := "Series " +:+ pretty sn +:+ " — " +:+ plane |}).

(** the block under [if report_status in ["Preliminary","Final"]] *)
Definition gen_report (sid modality body_part report_status : string)
    (is_critical : bool) : G unit :=
  base ← choice w (findings_pool modality);
  findings ← (if is_critical
              then c ← choice w CRITICAL_FINDINGS;
                   mret (base +:+ CRITICAL_MARKER +:+ c)
              else mret base);
  rid ← uuid w;
  author ← choice w CLINICIANS;
  created ← random_time w 1;
  updated ← random_time w 0;
  r ← random w;
  execute (insert_report
    {| Report.report_id := rid; Report.study_id := sid; Report.author := author;
       Report.created_at := created; Report.updated_at := updated;
       Report.indication := "Query " +:+ body_part +:+ " pathology";
       Report.technique :=
         modality +:+ " " +:+ body_part +:+ " " +:+
         (if (2 ^ 53 <? 2 * r)%Z then "with contrast" else "without contrast");
       Report.findings := findings;
       Report.impression := "Findings as above. Clinical correlation advised. Please discuss with reporting radiologist if urgent review required.";
       Report.sign_status := report_status;
       Report.addenda := json_dumps w [] |}).

(** one round of [for _ in range(n_studies)]; [random.random() <
    critical_pct / 100] is decided on the exact fractions *)
Definition gen_study (pid : string) (critical_pct : Z) : G unit :=
  tmpl ← choice w STUDY_TEMPLATES;
  let '(modality, body_part, description, priority) := tmpl in
  r ← random w;
  let is_critical := (r * 100 <? critical_pct * 2 ^ 53)%Z in
  report_status ← choice w ["Unreported"; "Unreported"; "Unreported";
                            "Preliminary"; "Final"; "Final"];
  oid ← uuid w;
  sid ← uuid w;
  clinician ← choice w CLINICIANS;
  location ← choice w LOCATIONS;
  d ← randint w 0 7;
  created ← random_time w d;
  _ ← execute (insert_order
    {| Order.order_id := oid; Order.patient_id := pid;
       Order.ordering_clinician := clinician; Order.ordering_location := location;
       Order.indication := order_indication body_part description;
       Order.priority := priority; Order.status := "Active";
       Order.created_at := created |});
  d ← randint w 0 3;
  scheduled ← random_time w d;
  d ← randint w 0 2;
  acquired ← random_time w d;
  acc ← randint w 10000000 99999999;
  _ ← execute (insert_study
    {| Study.study_id := sid; Study.patient_id := pid; Study.order_id := oid;
       Study.modality := modality; Study.description := description;
       Study.body_part := body_part;
       Study.scheduled_time := scheduled; Study.acquisition_time := acquired;
       Study.accession := "ACC" +:+ pretty acc;
       Study.report_status := report_status;
       Study.critical_flag := (if is_critical then 1 else 0)%Z;
       Study.pacs_status := "Available" |});
  n_series ← randint w 1 4;
  _ ← for_each (seqZ 1 n_series) (gen_series sid);
  if bool_decide (report_status ∈ ["Preliminary"; "Final"])
  then gen_report sid modality body_part report_status is_critical
  else mret tt.

(** one round of [for _ in range(n_patients)]; the local variables are
    [(patients_created, studies_created)] *)
Definition gen_patient (studies_per_patient critical_pct : Z)
    (counts : Z * Z) : G (Z * Z) :=
  let '(patients_created, studies_created) := counts in
  sex ← choice w ["M"; "F"; "M"; "F"; "M"];
  fname ← choice w (if String.eqb sex "M" then FIRST_NAMES_M else FIRST_NAMES_F);
  lname ← choice w LAST_NAMES;
  pid ← uuid w;
  m ← randint w 1000000 9999999;
  k ← randint w 1 3;
  allergies ← sample w ALLERGIES_POOL k;
  k ← randint w 0 2;
  alerts ← sample w ALERTS_POOL k;
  dob ← random_dob w;
  p1 ← randint w 100 999;
  p2 ← randint w 100000 999999;
  ok ← try_execute (insert_patient
    {| Patient.patient_id := pid; Patient.mrn := "KCH" +:+ pretty m;
       Patient.first_name := fname; Patient.last_name := lname;
       Patient.dob := dob; Patient.sex := sex;
       Patient.phone := "+44 7" +:+ pretty p1 +:+ " " +:+ pretty p2;
       Patient.allergies := json_dumps w allergies;
       Patient.alerts := json_dumps w alerts;
       Patient.infection_flags := json_dumps w [] |});
  if ok : bool then
    n_studies ← randint w 1 studies_per_patient;
    studies_created ← for_range (Z.to_nat n_studies)
      (λ n, _ ← gen_study pid critical_pct; mret (n + 1)%Z) studies_created;
    mret ((patients_created + 1)%Z, studies_created)
  else mret (patients_created, studies_created).

(** [generate_patients_and_studies]: the committed database and the two
    counters, or [None] when an exception leaves the function before
    [db.commit()] (nothing is written then). *)
Definition generate_patients_and_studies
    (n_patients studies_per_patient critical_pct : Z) (d : database)
  : option ((Z * Z) * database) :=
  match for_range (Z.to_nat n_patients)
          (gen_patient studies_per_patient critical_pct) (0, 0)%Z
          {| cursor := 0; conn := d |} with
  | Some (counts, s) => Some (counts, conn s)
  | None => None
  end.

End Generator.

(* ================================================================= *)
(** ** Query/command API *)

(** A row of [studies s JOIN patients p ... JOIN orders o ...]; each SELECT
    list names columns of these three rows. *)
Module Joined.
Record row := { study : Study.row; patient : Patient.row; order : Order.row }.
End Joined.

Definition join_studies (d : database) : list Joined.row :=
  s ← studies d;
  p ← filter (λ p, Patient.patient_id p = Study.patient_id s) (patients d);
  o ← filter (λ o, Order.order_id o = Study.order_id s) (orders d);
  [ {| Joined.study := s; Joined.patient := p; Joined.order := o |} ].

(** [CASE o.priority WHEN 'Emergency' THEN 0 WHEN 'Urgent' THEN 1 ELSE 2 END] *)
Definition priority_rank (priority : string) : Z :=
  if String.eqb priority "Emergency" then 0
  else if String.eqb priority "Urgent" then 1
  else 2.

(** the worklist's [ORDER BY s.critical_flag DESC, CASE ... END,
    s.scheduled_time DESC] as a test "[a] may come before [b]" *)
Definition worklist_le (a b : Joined.row) : bool :=
  let ca := Study.critical_flag (Joined.study a) in
  let cb := Study.critical_flag (Joined.study b) in
  let ra := priority_rank (Order.priority (Joined.order a)) in
  let rb := priority_rank (Order.priority (Joined.order b)) in
  if (cb <? ca)%Z then true
  else if (ca <? cb)%Z then false
  else if (ra <? rb)%Z then true
  else if (rb <? ra)%Z then false
  else Text.leb (Study.scheduled_time (Joined.study b))
                (Study.scheduled_time (Joined.study a)).

(** the WHERE clause assembled by [worklist]: a filter applies only when
    its parameter is a non-empty string *)
Definition worklist_where (modality status priority search : string)
    (j : Joined.row) : bool :=
  let s := Joined.study j in
  let p := Joined.patient j in
  let o := Joined.order j in
  let pat := "%" +:+ search +:+ "%" in
  (if String.eqb modality "" then true else String.eqb (Study.modality s) modality)
  && (if String.eqb status "" then true else String.eqb (Study.report_status s) status)
  && (if String.eqb priority "" then true else String.eqb (Order.priority o) priority)
  && (if String.eqb search "" then true
      else Text.like pat (Patient.first_name p +:+ " " +:+ Patient.last_name p)
           || Text.like pat (Patient.mrn p)
           || Text.like pat (Study.description s)).

Definition worklist_rows (modality status priority search : string)
    (limit offset : Z) (d : database) : list Joined.row :=
  limit_offset limit offset
    (order_by worklist_le
       (List.filter (worklist_where modality status priority search) (join_studies d))).

(** the columns selected by [export_data], as [dict(r)] gives them *)
Definition export_dict (j : Joined.row) : gmap string jval :=
  let s := Joined.study j in
  let p := Joined.patient j in
  let o := Joined.order j in
  list_to_map
    [ ("mrn", JStr (Patient.mrn p)); ("first_name", JStr (Patient.first_name p));
      ("last_name", JStr (Patient.last_name p)); ("dob", JStr (Patient.dob p));
      ("sex", JStr (Patient.sex p)); ("modality", JStr (Study.modality s));
      ("description", JStr (Study.description s));
      ("body_part", JStr (Study.body_part s));
      ("scheduled_time", JStr (Study.scheduled_time s));
      ("report_status", JStr (Study.report_status s));
      ("critical_flag", JInt (Study.critical_flag s));
      ("priority", JStr (Order.priority o));
      ("ordering_clinician", JStr (Order.ordering_clinician o)) ].

Definition export_columns : list string :=
  [ "mrn"; "first_name"; "last_name"; "dob"; "sex"; "modality"; "description";
    "body_part"; "scheduled_time"; "report_status"; "critical_flag"; "priority";
    "ordering_clinician" ].

Definition export_rows (d : database) : list (gmap string jval) :=
  export_dict <$>
    order_by (λ a b, Text.leb (Study.scheduled_time (Joined.study b))
                              (Study.scheduled_time (Joined.study a)))
             (join_studies d).

(** [SELECT modality, COUNT( * ) FROM studies GROUP BY modality] as a dict *)
Definition modality_counts (l : list Study.row) : gmap string nat :=
  foldr (λ s m, <[Study.modality s := S (default 0 (m !! Study.modality s))]> m) ∅ l.

(** What a handler answers with. *)
Inductive response :=
  | LoggedOut
  | Worklist (studies : list Joined.row) (total : nat)
  | PatientFound (p : Patient.row)
  | StudyFound (s : Joined.row) (series : list Series.row) (report : option Report.row)
  | ReportSaved (report_id : string)
  | Reports (rows : list (Report.row * Study.row * Patient.row))
  | ReportUpdated
  | Generated (patients studies : Z)
  | ExportJson (data : list (gmap string jval))
  | ExportCsv (header : list string) (data : list (gmap string jval))
  | Imported (imported : Z)
  | AriaResponse (text : string)
  | AriaSuggestion (text : string)
  | AriaTranscript (text : string)
  | AriaAudio (content : string)
  | Stats (total critical unreported patients : nat) (modalities : gmap string nat).

Definition outcome : Type := (error + response) * state.

(** [verify_token] *)
Definition verify_token (token : string) (st : state) : error + string :=
  match SESSIONS st !! token with
  | Some username => inr username
  | None => inl Unauthorized
  end.

(** [logout]: [SESSIONS.pop(token, None)] *)
Definition logout (token : string) (st : state) : outcome :=
  (inr LoggedOut, {| db := db st; SESSIONS := delete token (SESSIONS st) |}).

Definition with_db (st : state) (d : database) : state :=
  {| db := d; SESSIONS := SESSIONS st |}.

Definition ARIA_SYSTEM_PROMPT : string :=
"You are ARIA — Advanced Radiology Intelligence Assistant at King's College Hospital NHS Foundation Trust.
You are a sophisticated, calm, professional female AI assistant embedded in the hospital's radiology workbench.
You assist radiologists and clinicians with workflow queries, study prioritisation, and report assistance.
You never make definitive clinical diagnoses. You always recommend clinical correlation.
Respond concisely and professionally. Maximum 3 sentences unless detail is requested.
Always add: 'This is AI-assisted information — clinical judgment must prevail.'".

Definition assist_prompt (data : gmap string jval) : string :=
"You are ARIA, an AI radiology assistant at King's College Hospital.
Based on these findings, suggest a professional radiology report impression and differential diagnosis.

Modality: " +:+ get_text data "modality" "" +:+ "
Body Part: " +:+ get_text data "body_part" "" +:+ "
Clinical Indication: " +:+ get_text data "indication" "" +:+ "
Findings: " +:+ get_text data "findings" "" +:+ "

Provide:
1. A concise professional Impression (2-3 sentences)
2. Key differentials (bullet list, max 4)
3. Recommended follow-up if appropriate

IMPORTANT: Prefix with: 'AI-ASSISTED SUGGESTION — Requires radiologist review and sign-off.'".

Section Handlers.
Variable w : world.

(** [datetime.datetime.now().strftime("%Y-%m-%d %H:%M")] *)
Definition now : string := strftime_ago w 0 0.

Definition worklist (token modality status priority search : string)
    (limit offset : Z) (st : state) : outcome :=
  match verify_token token st with
  | inl e => (inl e, st)
  | inr _ =>
      let rows := worklist_rows modality status priority search limit offset (db st) in
      (inr (Worklist rows (length rows)), st)
  end.

Definition get_patient (patient_id token : string) (st : state) : outcome :=
  match verify_token token st with
  | inl e => (inl e, st)
  | inr _ =>
      match List.filter (λ p, String.eqb (Patient.patient_id p) patient_id)
                        (patients (db st)) with
      | p :: _ => (inr (PatientFound p), st)
      | [] => (inl NotFound, st)
      end
  end.

Definition get_study (study_id token : string) (st : state) : outcome :=
  match verify_token token st with
  | inl e => (inl e, st)
  | inr _ =>
      let s := List.filter (λ j, String.eqb (Study.study_id (Joined.study j)) study_id)
                           (join_studies (db st)) in
      let series :=
        order_by (λ a b, (Series.series_number a <=? Series.series_number b)%Z)
          (List.filter (λ x, String.eqb (Series.study_id x) study_id) (series (db st))) in
      let report :=
        head (order_by (λ a b, Text.leb (Report.created_at b) (Report.created_at a))
          (List.filter (λ r, String.eqb (Report.study_id r) study_id) (reports (db st)))) in
      match s with
      | j :: _ => (inr (StudyFound j series report), st)
      | [] => (inl NotFound, st)
      end
  end.

(** [create_report]: a missing ["study_id"] key (KeyError), a body value
    that cannot be bound (OverflowError) and a taken report id
    (IntegrityError) all leave the handler as exceptions, before anything is
    committed. *)
Definition create_report (data : gmap string jval) (token : string)
    (st : state) : outcome :=
  match verify_token token st with
  | inl e => (inl e, st)
  | inr username =>
      let rid := uuid4 w 0 in
      match data !! "study_id" with
      | None => (inl ServerError, st)
      | Some study_id =>
          match bound (study_id :: report_params data)
                  (insert_report
                     {| Report.report_id := rid; Report.study_id := to_text study_id;
                        Report.author := username;
                        Report.created_at := now; Report.updated_at := now;
                        Report.indication := get_text data "indication" "";
                        Report.technique := get_text data "technique" "";
                        Report.findings := get_text data "findings" "";
                        Report.impression := get_text data "impression" "";
                        Report.sign_status := get_text data "sign_status" "Draft";
                        Report.addenda := json_dumps w [] |}) (db st) with
          | Some d => (inr (ReportSaved rid), with_db st d)
          | None => (inl ServerError, st)
          end
      end
  end.

Definition get_reports (token : string) (st : state) : outcome :=
  match verify_token token st with
  | inl e => (inl e, st)
  | inr _ =>
      let rows :=
        r ← reports (db st);
        s ← filter (λ s, Report.study_id r = Study.study_id s) (studies (db st));
        p ← filter (λ p, Study.patient_id s = Patient.patient_id p) (patients (db st));
        [ (r, s, p) ] in
      (inr (Reports (order_by (λ a b, Text.leb (Report.updated_at (b.1.1))
                                               (Report.updated_at (a.1.1))) rows)), st)
  end.

(** the [UPDATE reports SET ... WHERE report_id=?] of [update_report] *)
Definition update_row (report_id : string) (data : gmap string jval)
    (r : Report.row) : Report.row :=
  if String.eqb (Report.report_id r) report_id then
    {| Report.report_id := Report.report_id r; Report.study_id := Report.study_id r;
       Report.author := Report.author r; Report.created_at := Report.created_at r;
       Report.updated_at := now;
       Report.indication := get_text data "indication" "";
       Report.technique := get_text data "technique" "";
       Report.findings := get_text data "findings" "";
       Report.impression := get_text data "impression" "";
       Report.sign_status := get_text data "sign_status" "Draft";
       Report.addenda := Report.addenda r |}
  else r.

(** [update_report]: a body value that cannot be bound (OverflowError)
    leaves the handler as an exception, before any row is updated. *)
Definition update_report (report_id : string) (data : gmap string jval)
    (token : string) (st : state) : outcome :=
  match verify_token token st with
  | inl e => (inl e, st)
  | inr _ =>
      match bound (report_params data)
              (λ d, Some {| patients := patients d; orders := orders d;
                            studies := studies d; series := series d;
                            reports := update_row report_id data <$> reports d |})
              (db st) with
      | Some d => (inr ReportUpdated, with_db st d)
      | None => (inl ServerError, st)
      end
  end.

Definition generate_data (data : gmap string Z) (token : string)
    (st : state) : outcome :=
  match verify_token token st with
  | inl e => (inl e, st)
  | inr _ =>
      match generate_patients_and_studies w
              (default 50%Z (data !! "patients"))
              (default 3%Z (data !! "studies_per_patient"))
              (default 15%Z (data !! "critical_pct")) (db st) with
      | Some ((patients_created, studies_created), d) =>
          (inr (Generated patients_created studies_created), with_db st d)
      | None => (inl ServerError, st)
      end
  end.

Definition export_data (token fmt : string) (st : state) : outcome :=
  match verify_token token st with
  | inl e => (inl e, st)
  | inr _ =>
      let data := export_rows (db st) in
      if String.eqb fmt "csv" then
        match data with
        | [] => (inr (ExportCsv [] []), st)
        | _ :: _ => (inr (ExportCsv export_columns data), st)
        end
      else (inr (ExportJson data), st)
  end.

(** the tuple [import_data] inserts for [row], given the fresh patient id
    and the number drawn for the default MRN *)
Definition import_patient (row : gmap string jval) (pid : string) (m : Z)
  : Patient.row :=
  {| Patient.patient_id := pid;
     Patient.mrn := get_text row "mrn" ("KCH" +:+ pretty m);
     Patient.first_name := get_text row "first_name" "Unknown";
     Patient.last_name := get_text row "last_name" "Unknown";
     Patient.dob := get_text row "dob" "1970-01-01";
     Patient.sex := get_text row "sex" "U";
     Patient.phone := ""; Patient.allergies := "[]"; Patient.alerts := "[]";
     Patient.infection_flags := "[]" |}.

(** one round of [for row in rows] in [import_data]; the default MRN is
    computed whether or not the row has one; a row value that cannot be
    bound raises inside the inner [try], like a refused INSERT *)
Definition import_row (row : gmap string jval) (imported : Z) : G Z :=
  pid ← uuid w;
  m ← randint w 1000000 9999999;
  ok ← try_execute (bound (import_params row ("KCH" +:+ pretty m))
                      (insert_patient (import_patient row pid m)));
  mret (if ok : bool then imported + 1 else imported)%Z.

Fixpoint import_rows (rows : list (gmap string jval)) (imported : Z) : G Z :=
  match rows with
  | [] => mret imported
  | row :: rest => imported' ← import_row row imported; import_rows rest imported'
  end.

(** the MRN [import_row] gives [row] when it starts in state [s] *)
Definition import_mrn (row : gmap string jval) (s : gen_state) : string :=
  get_text row "mrn"
    ("KCH" +:+ pretty (1000000 + entropy w (S (cursor s)) `mod` 9000000)%Z).

(** [import_data].  [payload] is the uploaded file as [json.loads] or
    [csv.DictReader] read it: the rows, or [None] when reading it raises.
    An exception inside the outer [try] becomes a 400 and the connection is
    closed without a commit. *)
Definition import_data (token : string) (payload : option (list (gmap string jval)))
    (st : state) : outcome :=
  match verify_token token st with
  | inl e => (inl e, st)
  | inr _ =>
      match payload with
      | None => (inl BadRequest, st)
      | Some rows =>
          match import_rows rows 0%Z {| cursor := 0; conn := db st |} with
          | Some (imported, s) => (inr (Imported imported), with_db st (conn s))
          | None => (inl BadRequest, st)
          end
      end
  end.

Definition aria_query (data : gmap string jval) (token : string)
    (st : state) : outcome :=
  match verify_token token st with
  | inl e => (inl e, st)
  | inr _ =>
      match chat_completions w "gpt-4o"
              [ ("system", ARIA_SYSTEM_PROMPT); ("user", get_text data "query" "") ]
              400%Z with
      | inr content => (inr (AriaResponse content), st)
      | inl e => (inr (AriaResponse ("ARIA is temporarily unavailable: " +:+ e)), st)
      end
  end.

Definition aria_assist_report (data : gmap string jval) (token : string)
    (st : state) : outcome :=
  match verify_token token st with
  | inl e => (inl e, st)
  | inr _ =>
      match chat_completions w "gpt-4o" [ ("user", assist_prompt data) ] 500%Z with
      | inr content => (inr (AriaSuggestion content), st)
      | inl _ => (inl ServerError, st)
      end
  end.

Definition aria_transcribe (audio token : string) (st : state) : outcome :=
  match verify_token token st with
  | inl e => (inl e, st)
  | inr _ =>
      match transcriptions w "whisper-1" audio "en" with
      | inr text => (inr (AriaTranscript text), st)
      | inl _ => (inl ServerError, st)
      end
  end.

Definition aria_speak (data : gmap string jval) (token : string)
    (st : state) : outcome :=
  match verify_token token st with
  | inl e => (inl e, st)
  | inr _ =>
      let voice := get_text data "voice" "nova" in
      match speech w "tts-1" voice (get_text data "text" "") with
      | inr content => (inr (AriaAudio content), st)
      | inl _ => (inl ServerError, st)
      end
  end.

Definition get_stats (token : string) (st : state) : outcome :=
  match verify_token token st with
  | inl e => (inl e, st)
  | inr _ =>
      let d := db st in
      (inr (Stats
              (length (studies d))
              (length (List.filter (λ s, (Study.critical_flag s =? 1)%Z) (studies d)))
              (length (List.filter (λ s, String.eqb (Study.report_status s) "Unreported")
                                   (studies d)))
              (length (patients d))
              (modality_counts (studies d))), st)
  end.

(** The operations under [/api/], with their arguments. *)
Inductive request :=
  | GetWorklist (modality status priority search : string) (limit offset : Z)
  | GetPatient (patient_id : string)
  | GetStudy (study_id : string)
  | PostReport (data : gmap string jval)
  | GetReports
  | PutReport (report_id : string) (data : gmap string jval)
  | PostGenerate (data : gmap string Z)
  | GetExport (fmt : string)
  | PostImport (payload : option (list (gmap string jval)))
  | PostAriaQuery (data : gmap string jval)
  | PostAriaAssistReport (data : gmap string jval)
  | PostAriaTranscribe (audio : string)
  | PostAriaSpeak (data : gmap string jval)
  | GetStats.

Definition api (req : request) (token : string) (st : state) : outcome :=
  match req with
  | GetWorklist modality status priority search limit offset =>
      worklist token modality status priority search limit offset st
  | GetPatient patient_id => get_patient patient_id token st
  | GetStudy study_id => get_study study_id token st
  | PostReport data => create_report data token st
  | GetReports => get_reports token st
  | PutReport report_id data => update_report report_id data token st
  | PostGenerate data => generate_data data token st
  | GetExport fmt => export_data token fmt st
  | PostImport payload => import_data token payload st
  | PostAriaQuery data => aria_query data token st
  | PostAriaAssistReport data => aria_assist_report data token st
  | PostAriaTranscribe audio => aria_transcribe audio token st
  | PostAriaSpeak data => aria_speak data token st
  | GetStats => get_stats token st
  end.

End Handlers.

(* ================================================================= *)
(** ** A small concrete installation, used to run the handlers *)

Definition demo_world : world := {|
  entropy := λ k, (Z.of_nat (7 * k + 3) * 1234567891234567)%Z;
  uuid4 := λ k, "uuid-" +:+ pretty k;
  strftime_ago := λ d h, "2024-05-" +:+ pretty (28 - d)%Z +:+ " " +:+ pretty (23 - h)%Z +:+ ":00";
  date_ago := λ n, "day-" +:+ pretty n;
  json_dumps := λ l, "[" +:+ String.concat ", " l +:+ "]";
  chat_completions := λ _ _ _, inl "provider offline";
  transcriptions := λ _ _ _, inl "provider offline";
  speech := λ _ _ _, inl "provider offline" |}.

Definition demo_patient (pid mrn fname : string) : Patient.row :=
  {| Patient.patient_id := pid; Patient.mrn := mrn; Patient.first_name := fname;
     Patient.last_name := "Smith"; Patient.dob := "1980-01-01"; Patient.sex := "F";
     Patient.phone := ""; Patient.allergies := "[]"; Patient.alerts := "[]";
     Patient.infection_flags := "[]" |}.

Definition demo_order (oid pid priority : string) : Order.row :=
  {| Order.order_id := oid; Order.patient_id := pid;
     Order.ordering_clinician := "Dr. A. Patel"; Order.ordering_location := "ICU";
     Order.indication := "Query fracture"; Order.priority := priority;
     Order.status := "Active"; Order.created_at := "2024-05-01 08:00" |}.

Definition demo_study (sid pid oid scheduled : string) (critical : Z) : Study.row :=
  {| Study.study_id := sid; Study.patient_id := pid; Study.order_id := oid;
     Study.modality := "XR"; Study.description := "X-ray Hip — query fracture";
     Study.body_part := "MSK"; Study.scheduled_time := scheduled;
     Study.acquisition_time := scheduled; Study.accession := "ACC10000001";
     Study.report_status := "Final"; Study.critical_flag := critical;
     Study.pacs_status := "Available" |}.

Definition demo_report (rid sid : string) : Report.row :=
  {| Report.report_id := rid; Report.study_id := sid; Report.author := "david";
     Report.created_at := "2024-05-02 09:00"; Report.updated_at := "2024-05-02 09:30";
     Report.indication := "Query fracture"; Report.technique := "XR MSK";
     Report.findings := "Bony structures intact."; Report.impression := "Normal.";
     Report.sign_status := "Final"; Report.addenda := "[]" |}.

(** two patients, the first with three studies, the second with none *)
Definition demo_db : database :=
  {| patients := [ demo_patient "p1" "KCH1000001" "Sarah";
                   demo_patient "p2" "KCH1000002" "Emma" ];
     orders := [ demo_order "o1" "p1" "Routine"; demo_order "o2" "p1" "Emergency";
                 demo_order "o3" "p1" "Stat" ];
     studies := [ demo_study "s1" "p1" "o1" "2024-05-03 10:00" 0;
                  demo_study "s2" "p1" "o2" "2024-05-01 10:00" 0;
                  demo_study "s3" "p1" "o3" "2024-05-02 10:00" 1 ];
     series := [];
     reports := [ demo_report "r1" "s1" ] |}.

Definition demo_state : state :=
  {| db := demo_db; SESSIONS := {[ "t0k3n" := "david" ]} |}.

(** an import batch whose second row repeats a stored MRN and whose third
    row repeats the first row's *)
Definition demo_batch : list (gmap string jval) :=
  [ {[ "mrn" := JStr "KCH5000001" ]};
    {[ "mrn" := JStr "KCH1000002" ]};
    {[ "mrn" := JStr "KCH5000001" ]};
    {[ "mrn" := JStr "KCH5000002" ]} ].

(** the database a generator run with (2, 3, 80) leaves on the demo world,
    starting from the empty database *)
Definition demo_generated : database :=
  Eval vm_compute in
    match generate_patients_and_studies demo_world 2 3 80 empty_db with
    | Some (_, d) => d
    | None => empty_db
    end.

(* ================================================================= *)
(** ** Vocabulary for the generator's contract *)

(** [runs m d Q]: whenever [m], started on a connection that sees the
    database [d], finishes without raising, its result and the database the
    connection then sees satisfy [Q]. *)
Definition runs {A : Type} (m : G A) (d : database)
    (Q : A → database → Prop) : Prop :=
  ∀ s a s', conn s = d → m s = Some (a, s') → Q a (conn s').











(* ================================================================= *)
(** ** Login *)

(** What [login] takes from outside the process:
    [hashlib.sha256(s.encode()).hexdigest()], [str.lower] and the value of
    [secrets.token_hex(32)] for this request. *)
Record auth_world := {
  sha256_hexdigest : string → string;
  lower : string → string;
  token_hex : string }.

(** the demo credentials *)
Definition USERS (a : auth_world) : gmap string string :=
  list_to_map
    [ ("david", sha256_hexdigest a "kings2024");
      ("admin", sha256_hexdigest a "admin123");
      ("radiolog", sha256_hexdigest a "radiology") ].

Record LoginRequest := { username : string; password : string }.

(** [login]: the answer carries the token and the lower-cased username *)
Definition login (a : auth_world) (req : LoginRequest) (st : state)
  : (error + (string * string)) * state :=
  let h := sha256_hexdigest a (password req) in
  match USERS a !! lower a (username req) with
  | Some stored =>
      if String.eqb stored h then
        let token := token_hex a in
        (inr (token, lower a (username req)),
         {| db := db st;
            SESSIONS := <[token := lower a (username req)]> (SESSIONS st) |})
      else (inl Unauthorized, st)
  | None => (inl Unauthorized, st)
  end.

(** the requests whose handlers only read *)
Definition read_only (req : request) : bool :=
  match req with
  | PostReport _ | PutReport _ _ | PostGenerate _ | PostImport _ => false
  | _ => true
  end.

(** a stand-in for the hash, for running [login] *)
Definition demo_auth : auth_world :=
  {| sha256_hexdigest := λ s, "sha256:" +:+ s;
     lower := λ s, s;
     token_hex := "c0ffee" |}.

(* ================================================================= *)
(** ** Vocabulary for the worklist search *)

(** the text with its ASCII capitals turned into small letters, as [LIKE]
    compares it *)
Fixpoint casefold (s : string) : string :=
  match s with
  | EmptyString => EmptyString
  | String c rest => String (Text.fold_case c) (casefold rest)
  end.

(** no [%] and no [_] in the text *)
Fixpoint wildcard_free (s : string) : bool :=
  match s with
  | EmptyString => true
  | String c rest => negb (Ascii.eqb c "%") && negb (Ascii.eqb c "_") && wildcard_free rest
  end.

(** every primary key, and the MRN, occurs once in its table *)
Definition keys_unique (d : database) : Prop :=
  NoDup (Patient.patient_id <$> patients d)
  ∧ NoDup (Patient.mrn <$> patients d)
  ∧ NoDup (Order.order_id <$> orders d)
  ∧ NoDup (Study.study_id <$> studies d)
  ∧ NoDup (Series.series_id <$> series d)
  ∧ NoDup (Report.report_id <$> reports d).

(** [keeps I m]: started on a database that satisfies [I], [m] leaves one
    that satisfies [I] whenever it finishes without raising *)
Definition keeps (I : database → Prop) {A : Type} (m : G A) : Prop :=
  ∀ d, I d → runs m d (λ _ d', I d').

(* ================================================================= *)
(** ** Vocabulary for the rows the generator writes *)

(** an order and a study as one round of the generator writes them for the
    patient [pid] *)
Definition study_row_ok (pid : string) (o : Order.row) (s : Study.row) : Prop :=
  Study.patient_id s = pid
  ∧ Order.patient_id o = pid
  ∧ Study.order_id s = Order.order_id o
  ∧ (Study.modality s, Study.body_part s, Study.description s, Order.priority o)
    ∈ STUDY_TEMPLATES
  ∧ Order.indication o = order_indication (Study.body_part s) (Study.description s)
  ∧ Order.status o = "Active"
  ∧ Study.report_status s ∈ ["Unreported"; "Preliminary"; "Final"]
  ∧ (Study.critical_flag s = 0%Z ∨ Study.critical_flag s = 1%Z)
  ∧ Study.pacs_status s = "Available".

Definition series_row_ok (s : Study.row) (se : Series.row) : Prop :=
  Series.study_id se = Study.study_id s
  ∧ (1 ≤ Series.series_number se ≤ 4)%Z.

Definition report_row_ok (s : Study.row) (r : Report.row) : Prop :=
  Report.study_id r = Study.study_id s
  ∧ Report.sign_status r = Study.report_status s
  ∧ Report.indication r = "Query " +:+ Study.body_part s +:+ " pathology"
  ∧ Report.author r ∈ CLINICIANS.

(** what a run of the generator has appended so far, with its two counters *)
Definition generated_rows (d d' : database) (counts : Z * Z)
    (ps : list Patient.row) (os : list Order.row) (ss : list Study.row)
    (srs : list Series.row) (rs : list Report.row) : Prop :=
  patients d' = patients d ++ ps
  ∧ orders d' = orders d ++ os
  ∧ studies d' = studies d ++ ss
  ∧ series d' = series d ++ srs
  ∧ reports d' = reports d ++ rs
  ∧ counts.1 = Z.of_nat (length ps)
  ∧ counts.2 = Z.of_nat (length ss)
  ∧ length os = length ss
  ∧ (∀ s, s ∈ ss → ∃ p o, p ∈ ps ∧ o ∈ os ∧ study_row_ok (Patient.patient_id p) o s)
  ∧ (∀ se, se ∈ srs → ∃ s, s ∈ ss ∧ series_row_ok s se)
  ∧ (∀ r, r ∈ rs → ∃ s, s ∈ ss ∧ report_row_ok s r).

(** the tuples the loop of [import_data] tries to insert, row by row, when it
    starts at cursor [c]: each round draws its patient id and then the number
    of its default MRN *)
Fixpoint import_plan (w : world) (c : nat) (rows : list (gmap string jval))
  : list Patient.row :=
  match rows with
  | [] => []
  | row :: rest =>
      import_patient row (uuid4 w c) (1000000 + entropy w (S c) `mod` 9000000)%Z
      :: import_plan w (S (S c)) rest
  end.

(* ================================================================= *)
(** ** The patch script [fix_backend.py] *)

(** A Python [str] is a sequence of code points.  [str.replace] and
    [str.find] are modelled on sequences of any type with decidable
    equality. *)
Section PyStr.
Context {A : Type} `{EqDecision A}.

(** the left-to-right scan of [s.replace(old, new)] for a non-empty [old]:
    [skip] counts the characters of the last match still to be passed *)
Fixpoint replace_from (old new : list A) (skip : nat) (s : list A) : list A :=
  match s with
  | [] => []
  | c :: s' =>
      match skip with
      | S k => replace_from old new k s'
      | O =>
          if bool_decide (old `prefix_of` s)
          then new ++ replace_from old new (length old - 1) s'
          else c :: replace_from old new 0 s'
      end
  end.

(** [s.replace(old, new)]: every non-overlapping occurrence, leftmost first;
    an empty [old] matches before every character and at the end *)
Definition str_replace (old new s : list A) : list A :=
  match old with
  | [] => new ++ (c ← s; c :: new)
  | _ :: _ => replace_from old new 0 s
  end.

(** [s.find(old)], with [None] for -1 *)
Fixpoint str_find (old s : list A) : option nat :=
  if bool_decide (old `prefix_of` s) then Some 0%nat
  else match s with
       | [] => None
       | _ :: s' => S <$> str_find old s'
       end.

End PyStr.

Definition codepoints (s : string) : list N :=
  N_of_ascii <$> list_ascii_of_string s.

Definition dquote : string := String "034"%char EmptyString.
Definition newline : string := String "010"%char EmptyString.

(** the text bound to [new_endpoint] *)
Definition new_endpoint : list N :=
  codepoints (String.concat newline
    [ "";
      "@app.get(" +:+ dquote +:+ "/api/reports" +:+ dquote +:+ ")";
      "async def get_reports(token: str, db: sqlite3.Connection = Depends(get_db)):";
      "    verify_token(token)";
      "    cur = db.execute(" +:+ dquote +:+ dquote +:+ dquote;
      "        SELECT r.*, p.first_name, p.last_name, p.mrn, s.modality, s.body_part, s.accession";
      "        FROM reports r";
      "        JOIN studies s ON r.study_id = s.study_id";
      "        JOIN patients p ON s.patient_id = p.patient_id";
      "        ORDER BY r.updated_at DESC";
      "    " +:+ dquote +:+ dquote +:+ dquote +:+ ")";
      "    rows = [dict(zip([c[0] for c in cur.description], row)) for row in cur.fetchall()]";
      "    return {" +:+ dquote +:+ "reports" +:+ dquote +:+ ": rows}";
      "";
      "" ]).

(** the line the script looks for *)
Definition main_guard : list N :=
  codepoints ("if __name__ == " +:+ dquote +:+ "__main__" +:+ dquote +:+ ":").

(** [fix_backend.py], from the text read from [main.py] to the text written
    back: [content.replace(guard, new_endpoint + guard)] *)
Definition fix_backend (content : list N) : list N :=
  str_replace main_guard (new_endpoint ++ main_guard) content.

(* ================================================================= *)
(** * Properties *)

(** ** Session store *)

Lemma verify_token_absent token st :
  SESSIONS st !! token = None → verify_token token st = inl Unauthorized.
Proof. intros H. unfold verify_token. by rewrite H. Qed.

Lemma verify_token_present token st username :
  SESSIONS st !! token = Some username → verify_token token st = inr username.
Proof. intros H. unfold verify_token. by rewrite H. Qed.

Lemma with_db_same st : with_db st (db st) = st.
Proof. by destruct st. Qed.

(** ** Binding request values *)

Lemma bound_Some params ins d d' :
  bound params ins d = Some d' →
  forallb bindable params = true ∧ ins d = Some d'.
Proof. unfold bound. by destruct (forallb bindable params). Qed.

Lemma bound_bindable params ins d :
  forallb bindable params = true → bound params ins d = ins d.
Proof. unfold bound. by intros ->. Qed.


Lemma bound_refused params ins d :
  ins d = None → bound params ins d = None.
Proof. unfold bound. by destruct (forallb bindable params). Qed.

Lemma get_text_value data key dflt :
  get_text data key dflt = to_text (get_value data key dflt).
Proof. unfold get_text, get_value. by destruct (data !! key). Qed.

(** C9: logout succeeds for every token and removes its mapping, touching
    neither the other sessions nor the database; a second logout with the
    same token succeeds as well and changes nothing. *)
Theorem logout_idempotent token st :
  let st1 := (logout token st).2 in
  (logout token st).1 = inr LoggedOut
  ∧ SESSIONS st1 !! token = None
  ∧ (∀ t, t ≠ token → SESSIONS st1 !! t = SESSIONS st !! t)
  ∧ db st1 = db st
  ∧ logout token st1 = (inr LoggedOut, st1).
Proof.
  simpl. repeat split.
  - apply lookup_delete_eq.
  - intros t Hne. by apply lookup_delete_ne.
  - unfold logout. simpl. f_equal. f_equal.
    apply delete_id, lookup_delete_eq.
Qed.

(** ** Authorisation *)

(** C2: every operation under /api/ called with a token that is not in the
    session store ends in Unauthorized and returns the state it was given:
    neither the database nor the session store changes. *)
Theorem api_unknown_token_unauthorized (w : world) (req : request)
    (token : string) (st : state) :
  SESSIONS st !! token = None →
  api w req token st = (inl Unauthorized, st).
Proof.
  intros Habsent. apply verify_token_absent in Habsent.
  destruct req; simpl;
    unfold worklist, get_patient, get_study, create_report, get_reports,
      update_report, generate_data, export_data, import_data, aria_query,
      aria_assist_report, aria_transcribe, aria_speak, get_stats;
    by rewrite Habsent.
Qed.

Lemma api_unknown_token_unauthorized_witness :
  SESSIONS demo_state !! "stale" = None
  ∧ api demo_world (PostImport (Some [ {[ "mrn" := JStr "KCH7" ]} ])) "stale" demo_state
    = (inl Unauthorized, demo_state).
Proof.
  split; [ reflexivity | apply api_unknown_token_unauthorized; reflexivity ].
Defined.

(** ** Ordering of TEXT values *)

Lemma ascii_compare_eq a b : Ascii.compare a b = Eq → a = b.
Proof. apply Ascii.compare_eq_iff. Qed.

Lemma ascii_compare_refl a : Ascii.compare a a = Eq.
Proof. unfold Ascii.compare. apply N.compare_refl. Qed.

Lemma ascii_compare_lt_trans a b c :
  Ascii.compare a b = Lt → Ascii.compare b c = Lt → Ascii.compare a c = Lt.
Proof.
  unfold Ascii.compare. rewrite !N.compare_lt_iff. apply N.lt_trans.
Qed.

Lemma string_compare_refl s : String.compare s s = Eq.
Proof.
  induction s as [|c s IH]; simpl; [done|]. by rewrite ascii_compare_refl.
Qed.

Lemma string_compare_trans a : ∀ b c,
  String.compare a b ≠ Gt → String.compare b c ≠ Gt → String.compare a c ≠ Gt.
Proof.
  induction a as [|x a IH]; intros [|y b] [|z c]; simpl; try done.
  destruct (Ascii.compare x y) eqn:Hxy; [| |done].
  - apply ascii_compare_eq in Hxy as ->.
    destruct (Ascii.compare y z); [apply IH|done|done].
  - destruct (Ascii.compare y z) eqn:Hyz; [| |done].
    + apply ascii_compare_eq in Hyz as <-. by rewrite Hxy.
    + by rewrite (ascii_compare_lt_trans _ _ _ Hxy Hyz).
Qed.

Lemma text_leb_spec a b : Text.leb a b = true ↔ String.compare a b ≠ Gt.
Proof.
  unfold Text.leb, String.leb. destruct (String.compare a b); split; done.
Qed.

Lemma text_leb_trans a b c :
  Text.leb a b = true → Text.leb b c = true → Text.leb a c = true.
Proof. rewrite !text_leb_spec. apply string_compare_trans. Qed.

Lemma text_leb_total a b : Text.leb a b = true ∨ Text.leb b a = true.
Proof. apply String.leb_total. Qed.

(** ** ORDER BY and LIMIT/OFFSET *)

Section OrderBy.
Context {A : Type} (le : A → A → bool).
Hypothesis le_trans : ∀ a b c, le a b = true → le b c = true → le a c = true.
Hypothesis le_total : ∀ a b, le a b = true ∨ le b a = true.

Lemma order_by_sorted l : StronglySorted (λ a b, le a b = true) (order_by le l).
Proof.
  assert (Transitive (λ a b, Is_true (le a b))) as Htrans.
  { intros a b c Hab Hbc. apply Is_true_true.
    apply Is_true_true in Hab, Hbc. eauto. }
  assert (Total (λ a b, Is_true (le a b))) as Htotal.
  { intros a b. destruct (le_total a b) as [H|H]; [left|right]; by apply Is_true_true. }
  unfold order_by.
  pose proof (StronglySorted_merge_sort (λ a b, Is_true (le a b)) l) as Hs.
  induction Hs as [|x l' Hs IH Hall]; constructor; [done|].
  eapply Forall_impl; [exact Hall|]. intros y Hy. by apply Is_true_true.
Qed.
End OrderBy.

Lemma order_by_length {A} (le : A → A → bool) l : length (order_by le l) = length l.
Proof. unfold order_by. apply Permutation_length, merge_sort_Permutation. Qed.

Lemma order_by_elem_of {A} (le : A → A → bool) l x : x ∈ order_by le l ↔ x ∈ l.
Proof. unfold order_by. by rewrite merge_sort_Permutation. Qed.






(** ** Worklist *)








(** on the demo database: the critical study first, then Emergency before
    the two rank-2 studies, the later scheduled of those first *)
Example worklist_demo_order :
  (λ j, Study.study_id (Joined.study j)) <$>
    worklist_rows "" "" "" "" 100 0 demo_db = ["s3"; "s2"; "s1"].
Proof. vm_compute. reflexivity. Qed.



(** three studies match on the demo database, the page of two reports 2 *)
Example worklist_demo_total :
  ∃ rows, worklist "t0k3n" "XR" "" "" "" 2 0 demo_state
          = (inr (Worklist rows 2), demo_state)
  ∧ length (List.filter (worklist_where "XR" "" "" "") (join_studies demo_db)) = 3%nat.
Proof. eexists. split; vm_compute; reflexivity. Qed.

(** ** Reports *)











(** an authorised create-report call whose values can be bound and whose
    report id is new *)
Lemma create_report_bindable w data token st username study_id :
  SESSIONS st !! token = Some username →
  data !! "study_id" = Some study_id →
  forallb bindable (study_id :: report_params data) = true →
  uuid4 w 0 ∉ (Report.report_id <$> reports (db st)) →
  create_report w data token st
  = (inr (ReportSaved (uuid4 w 0)),
     with_db st
       {| patients := patients (db st); orders := orders (db st);
          studies := studies (db st); series := series (db st);
          reports := reports (db st) ++
            [ {| Report.report_id := uuid4 w 0; Report.study_id := to_text study_id;
                 Report.author := username;
                 Report.created_at := now w; Report.updated_at := now w;
                 Report.indication := get_text data "indication" "";
                 Report.technique := get_text data "technique" "";
                 Report.findings := get_text data "findings" "";
                 Report.impression := get_text data "impression" "";
                 Report.sign_status := get_text data "sign_status" "Draft";
                 Report.addenda := json_dumps w [] |} ] |}).
Proof.
  intros Hauth%verify_token_present Hkey Hbind Hfresh.
  unfold create_report. rewrite Hauth, Hkey, bound_bindable by done.
  unfold insert_report. simpl. by rewrite bool_decide_eq_false_2.
Qed.




(** ** Import *)

Lemma insert_patient_Some p d d' :
  insert_patient p d = Some d' →
  patients d' = patients d ++ [p] ∧ orders d' = orders d ∧ studies d' = studies d
  ∧ series d' = series d ∧ reports d' = reports d
  ∧ (Patient.patient_id p ∉ Patient.patient_id <$> patients d)
  ∧ (Patient.mrn p ∉ Patient.mrn <$> patients d).
Proof.
  unfold insert_patient.
  destruct (bool_decide _ || bool_decide _) eqn:Htaken; [done|].
  apply orb_false_elim in Htaken as [Hid Hmrn].
  apply bool_decide_eq_false in Hid, Hmrn.
  intros [= <-]. simpl. done.
Qed.

Lemma insert_patient_mrn_taken p d :
  Patient.mrn p ∈ Patient.mrn <$> patients d → insert_patient p d = None.
Proof.
  intros Hin. unfold insert_patient.
  rewrite (bool_decide_eq_true_2 (Patient.mrn p ∈ _)) by done.
  by rewrite orb_true_r.
Qed.

Lemma randint_run w a b s :
  (a ≤ b)%Z →
  randint w a b s =
  Some ((a + entropy w (cursor s) `mod` (b - a + 1))%Z,
        {| cursor := S (cursor s); conn := conn s |}).
Proof.
  intros Hab. unfold randint.
  destruct (Z.ltb_spec b a); [lia|]. reflexivity.
Qed.

(** what one round of the import loop does, in terms of the INSERT it tries *)
Lemma import_row_run w row imported s :
  let m := (1000000 + entropy w (S (cursor s)) `mod` 9000000)%Z in
  let p := import_patient row (uuid4 w (cursor s)) m in
  import_row w row imported s =
  match bound (import_params row ("KCH" +:+ pretty m)) (insert_patient p) (conn s) with
  | Some d => Some ((imported + 1)%Z, {| cursor := S (S (cursor s)); conn := d |})
  | None => Some (imported, {| cursor := S (S (cursor s)); conn := conn s |})
  end.
Proof.
  cbv zeta. unfold import_row, mbind, G_bind, uuid.
  rewrite randint_run by lia. cbn [cursor conn].
  unfold try_execute. cbn [cursor conn].
  change (9999999 - 1000000 + 1)%Z with 9000000%Z.
  by destruct (bound _ _ _).
Qed.

Lemma import_patient_mrn w row s :
  Patient.mrn (import_patient row (uuid4 w (cursor s))
                 (1000000 + entropy w (S (cursor s)) `mod` 9000000)%Z)
  = import_mrn w row s.
Proof. reflexivity. Qed.

Lemma import_rows_cons w row rest imported s :
  import_rows w (row :: rest) imported s =
  match import_row w row imported s with
  | Some (imported', s') => import_rows w rest imported' s'
  | None => None
  end.
Proof.
  simpl. unfold mbind, G_bind. by destruct (import_row _ _ _ _) as [[]|].
Qed.

Lemma import_rows_app w rows1 rows2 : ∀ imported s,
  import_rows w (rows1 ++ rows2) imported s =
  match import_rows w rows1 imported s with
  | Some (imported', s') => import_rows w rows2 imported' s'
  | None => None
  end.
Proof.
  induction rows1 as [|row rows1 IH]; intros imported s; [done|].
  rewrite <- app_comm_cons, !import_rows_cons.
  destruct (import_row _ _ _ _) as [[n s']|]; [apply IH|done].
Qed.

(** the loop never raises: it inserts some patients, counts exactly those,
    touches no other table, and keeps MRNs distinct *)
Lemma import_rows_run w rows : ∀ imported s,
  ∃ inserted s',
    import_rows w rows imported s = Some ((imported + Z.of_nat (length inserted))%Z, s')
    ∧ patients (conn s') = patients (conn s) ++ inserted
    ∧ orders (conn s') = orders (conn s)
    ∧ studies (conn s') = studies (conn s)
    ∧ series (conn s') = series (conn s)
    ∧ reports (conn s') = reports (conn s)
    ∧ (NoDup (Patient.mrn <$> patients (conn s)) →
       NoDup (Patient.mrn <$> patients (conn s'))).
Proof.
  induction rows as [|row rows IH]; intros imported s.
  - exists [], s. simpl. rewrite Z.add_0_r, app_nil_r. done.
  - rewrite import_rows_cons, import_row_run. cbv zeta.
    destruct (bound _ _ _) as [d|] eqn:Hins.
    + apply bound_Some in Hins as [_ Hins].
      apply insert_patient_Some in Hins as (Hp & Ho & Hst & Hse & Hr & _ & Hmrn).
      destruct (IH (imported + 1)%Z {| cursor := S (S (cursor s)); conn := d |})
        as (inserted & s' & Hrun & Hp' & Ho' & Hst' & Hse' & Hr' & Hnodup).
      simpl in *. eexists (_ :: inserted), s'.
      split. { rewrite Hrun. do 2 f_equal. simpl length. lia. }
      split. { by rewrite Hp', Hp, <- app_assoc. }
      repeat split; try congruence.
      intros Hnd. apply Hnodup. rewrite Hp, fmap_app. simpl.
      apply NoDup_app. split; [done|]. split.
      * intros m Hm Hm'. apply list_elem_of_singleton in Hm' as ->. done.
      * apply NoDup_singleton.
    + destruct (IH imported {| cursor := S (S (cursor s)); conn := conn s |})
        as (inserted & s' & Hrun & Hrest).
      by exists inserted, s'.
Qed.

(** C7: an authorised import of a batch of rows never fails.  It appends
    some patients [inserted] to the patients table and nothing anywhere
    else, and answers with exactly their number; if the stored MRNs were
    distinct they still are.  A row whose MRN is already held by a stored
    patient or by a patient inserted from an earlier row of the batch
    changes neither the database nor the count, and the rows after it are
    processed as they would be from that same database and count. *)
Theorem import_skips_duplicate_mrn (w : world) (token : string)
    (rows : list (gmap string jval)) (st : state) (username : string) :
  SESSIONS st !! token = Some username →
  ∃ inserted st',
    import_data w token (Some rows) st
    = (inr (Imported (Z.of_nat (length inserted))), st')
    ∧ patients (db st') = patients (db st) ++ inserted
    ∧ orders (db st') = orders (db st)
    ∧ studies (db st') = studies (db st)
    ∧ series (db st') = series (db st)
    ∧ reports (db st') = reports (db st)
    ∧ SESSIONS st' = SESSIONS st
    ∧ (NoDup (Patient.mrn <$> patients (db st)) →
       NoDup (Patient.mrn <$> patients (db st')))
    ∧ (∀ before row after, rows = before ++ row :: after →
       ∃ imported s,
         import_rows w before 0 {| cursor := 0; conn := db st |} = Some (imported, s)
         ∧ (import_mrn w row s ∈ Patient.mrn <$> patients (conn s) →
            ∃ s1, import_row w row imported s = Some (imported, s1)
                  ∧ conn s1 = conn s
                  ∧ import_rows w rows 0 {| cursor := 0; conn := db st |}
                    = import_rows w after imported s1)).
Proof.
  intros Hauth. apply verify_token_present in Hauth.
  unfold import_data. rewrite Hauth.
  destruct (import_rows_run w rows 0 {| cursor := 0; conn := db st |})
    as (inserted & s' & Hrun & Hp & Ho & Hst & Hse & Hr & Hnodup).
  rewrite Hrun. simpl in *.
  exists inserted, (with_db st (conn s')).
  split; [done|]. repeat (split; [done|]).
  intros before row after ->.
  destruct (import_rows_run w before 0 {| cursor := 0; conn := db st |})
    as (ins & s & Hbefore & _).
  eexists _, s. split; [exact Hbefore|].
  intros Hdup. rewrite <- import_patient_mrn in Hdup.
  apply insert_patient_mrn_taken in Hdup.
  eexists. rewrite import_row_run. cbv zeta. rewrite (bound_refused _ _ _ Hdup).
  split; [reflexivity|]. split; [reflexivity|].
  rewrite <- Hrun, import_rows_app, Hbefore, import_rows_cons, import_row_run. cbv zeta.
  by rewrite (bound_refused _ _ _ Hdup).
Qed.

Lemma import_skips_duplicate_mrn_witness :
  SESSIONS demo_state !! "t0k3n" = Some "david"
  ∧ ∃ inserted st',
      import_data demo_world "t0k3n" (Some demo_batch) demo_state
      = (inr (Imported (Z.of_nat (length inserted))), st')
      ∧ patients (db st') = patients (db demo_state) ++ inserted.
Proof.
  split; [reflexivity|].
  destruct (import_skips_duplicate_mrn demo_world "t0k3n" demo_batch demo_state "david"
              ltac:(reflexivity))
    as (inserted & st' & Hrun & Hp & _).
  exists inserted, st'. split; [exact Hrun | exact Hp].
Defined.

(** of the four rows of the demo batch, the second repeats a stored MRN and
    the third an earlier row's: two patients are inserted, the last row among
    them *)
Example import_demo_batch :
  ∃ st', import_data demo_world "t0k3n" (Some demo_batch) demo_state
         = (inr (Imported 2), st')
  ∧ Patient.mrn <$> patients (db st')
    = ["KCH1000001"; "KCH1000002"; "KCH5000001"; "KCH5000002"].
Proof. eexists. split; vm_compute; reflexivity. Qed.

(** ** Export followed by import *)

Lemma join_studies_patient d j :
  j ∈ join_studies d → Joined.patient j ∈ patients d.
Proof.
  unfold join_studies. intros Hj.
  apply list_elem_of_bind in Hj as (s & Hj & _).
  apply list_elem_of_bind in Hj as (p & Hj & Hp).
  apply list_elem_of_filter in Hp as [_ Hp].
  apply list_elem_of_bind in Hj as (o & Hj & _).
  apply list_elem_of_singleton in Hj as ->. done.
Qed.

Lemma export_dict_mrn j dflt :
  get_text (export_dict j) "mrn" dflt = Patient.mrn (Joined.patient j).
Proof. reflexivity. Qed.

Lemma export_rows_mrn_stored d row :
  row ∈ export_rows d →
  ∀ dflt, get_text row "mrn" dflt ∈ Patient.mrn <$> patients d.
Proof.
  unfold export_rows. intros Hrow dflt.
  apply list_elem_of_fmap in Hrow as (j & -> & Hj).
  apply order_by_elem_of, join_studies_patient in Hj.
  rewrite export_dict_mrn. by apply list_elem_of_fmap_2.
Qed.

(** rows that all carry stored MRNs leave the connection as it is *)
Lemma import_rows_all_taken w rows : ∀ imported s,
  Forall (λ row, ∀ dflt, get_text row "mrn" dflt ∈ Patient.mrn <$> patients (conn s)) rows →
  ∃ s', import_rows w rows imported s = Some (imported, s') ∧ conn s' = conn s.
Proof.
  induction rows as [|row rows IH]; intros imported s Hall.
  - by exists s.
  - apply Forall_cons in Hall as [Hrow Hall].
    rewrite import_rows_cons, import_row_run. cbv zeta.
    rewrite bound_refused by (apply insert_patient_mrn_taken, Hrow).
    apply (IH imported {| cursor := S (S (cursor s)); conn := conn s |}), Hall.
Qed.

(** C6, as the code has it: exporting as JSON and importing that JSON back
    inserts no patient.  Each exported row describes a study and carries the
    MRN of its stored patient, so the import skips every row: it answers
    with 0 and the state, the patients table included, is unchanged. *)
Theorem export_then_import_inserts_nothing (w : world) (token : string)
    (st : state) (username : string) :
  SESSIONS st !! token = Some username →
  ∃ data,
    export_data token "json" st = (inr (ExportJson data), st)
    ∧ import_data w token (Some data) st = (inr (Imported 0), st).
Proof.
  intros Hauth. apply verify_token_present in Hauth.
  exists (export_rows (db st)).
  unfold export_data, import_data. rewrite Hauth. split; [reflexivity|].
  destruct (import_rows_all_taken w (export_rows (db st)) 0
              {| cursor := 0; conn := db st |}) as (s' & -> & Hconn).
  { apply Forall_forall. intros row Hrow. by apply export_rows_mrn_stored. }
  simpl in Hconn. rewrite Hconn. by rewrite with_db_same.
Qed.

Lemma export_then_import_inserts_nothing_witness :
  SESSIONS demo_state !! "t0k3n" = Some "david"
  ∧ ∃ data,
      export_data "t0k3n" "json" demo_state = (inr (ExportJson data), demo_state)
      ∧ import_data demo_world "t0k3n" (Some data) demo_state
        = (inr (Imported 0), demo_state).
Proof.
  split; [ reflexivity
         | apply (export_then_import_inserts_nothing demo_world _ _ "david"); reflexivity ].
Defined.

(** C6 as the specification words it fails on the demo database, whose two
    patients give an export of three study rows: imported back into the same
    database the export inserts 0 patients, and imported into an empty
    database it inserts 1, the only patient that has studies. *)
Lemma export_import_patient_count_differs :
  let data := export_rows (db demo_state) in
  export_data "t0k3n" "json" demo_state = (inr (ExportJson data), demo_state)
  ∧ length (patients (db demo_state)) = 2%nat
  ∧ length data = 3%nat
  ∧ (import_data demo_world "t0k3n" (Some data) demo_state).1 = inr (Imported 0)
  ∧ length (patients (db (import_data demo_world "t0k3n" (Some data) demo_state).2))
    = 2%nat
  ∧ (import_data demo_world "t0k3n" (Some data) (with_db demo_state empty_db)).1
    = inr (Imported 1).
Proof.
  split; [reflexivity|]. split; [reflexivity|].
  repeat split; vm_compute; reflexivity.
Qed.

(** ** Generator: running randomised computations *)

Lemma runs_ret {A} (a : A) d (Q : A → database → Prop) :
  Q a d → runs (mret a) d Q.
Proof. intros HQ s a' s' <- [= <- <-]. done. Qed.

Lemma runs_bind {A B} (m : G A) (f : A → G B) d P Q :
  runs m d P → (∀ a d1, P a d1 → runs (f a) d1 Q) → runs (m ≫= f) d Q.
Proof.
  intros Hm Hf s b s' Hd Hrun. unfold mbind, G_bind in Hrun.
  destruct (m s) as [[a s1]|] eqn:Hms; [|done].
  eapply Hf; [by eapply Hm|reflexivity|exact Hrun].
Qed.

Lemma runs_conseq {A} (m : G A) d (P Q : A → database → Prop) :
  runs m d P → (∀ a d', P a d' → Q a d') → runs m d Q.
Proof. intros Hm HPQ s a s' Hd Hrun. eapply HPQ, Hm; done. Qed.

Lemma runs_draw w d : runs (draw w) d (λ _ d', d' = d ∧ True).
Proof. intros s a s' <- [= <- <-]. done. Qed.

Lemma runs_uuid w d : runs (uuid w) d (λ _ d', d' = d ∧ True).
Proof. intros s a s' <- [= <- <-]. done. Qed.

Lemma runs_randint w a b d :
  runs (randint w a b) d (λ x d', d' = d ∧ (a ≤ x ≤ b)%Z).
Proof.
  unfold randint. destruct (Z.ltb_spec b a); [done|].
  eapply runs_bind; [apply runs_draw|]. intros x d1 [-> _].
  apply runs_ret. split; [done|].
  pose proof (Z.mod_pos_bound x (b - a + 1)). lia.
Qed.

Lemma runs_choice {A} w (l : list A) d :
  runs (choice w l) d (λ x d', d' = d ∧ x ∈ l).
Proof.
  unfold choice.
  eapply runs_bind; [apply runs_draw|]. intros x d1 [-> _].
  destruct (l !! _) as [v|] eqn:Hv; [|done].
  apply runs_ret. split; [done|]. by eapply list_elem_of_lookup_2.
Qed.

Lemma runs_random w d : runs (random w) d (λ _ d', d' = d ∧ True).
Proof.
  unfold random. eapply runs_bind; [apply runs_draw|]. intros x d1 [-> _].
  by apply runs_ret.
Qed.

Lemma runs_sample_n {A} w k : ∀ (l : list A) d,
  runs (sample_n w k l) d (λ _ d', d' = d ∧ True).
Proof.
  induction k as [|k IH]; intros l d; simpl.
  - by apply runs_ret.
  - eapply runs_bind; [apply runs_draw|]. intros x d1 [-> _].
    destruct (l !! _) as [v|]; [|done].
    eapply runs_bind; [apply IH|]. intros rest d1 [-> _]. by apply runs_ret.
Qed.

Lemma runs_sample {A} w (l : list A) k d :
  runs (sample w l k) d (λ _ d', d' = d ∧ True).
Proof.
  unfold sample. destruct (_ || _); [done|]. apply runs_sample_n.
Qed.

Lemma runs_random_dob w d : runs (random_dob w) d (λ _ d', d' = d ∧ True).
Proof.
  unfold random_dob.
  eapply runs_bind; [apply runs_randint|]. intros age d1 [-> _].
  eapply runs_bind; [apply runs_randint|]. intros days d1 [-> _].
  by apply runs_ret.
Qed.

Lemma runs_random_time w days_back d :
  runs (random_time w days_back) d (λ _ d', d' = d ∧ True).
Proof.
  unfold random_time.
  eapply runs_bind; [apply runs_randint|]. intros h d1 [-> _].
  by apply runs_ret.
Qed.

Lemma runs_execute ins d :
  runs (execute ins) d (λ _ d', ins d = Some d').
Proof.
  intros s a s' <- Hrun. unfold execute in Hrun.
  destruct (ins (conn s)) as [d'|]; [|done]. by injection Hrun as <- <-.
Qed.

Lemma runs_try_execute ins d :
  runs (try_execute ins) d
    (λ ok d', (ok = true ∧ ins d = Some d') ∨ (ok = false ∧ d' = d)).
Proof.
  intros s a s' <- Hrun. unfold try_execute in Hrun.
  destruct (ins (conn s)) as [d'|]; injection Hrun as <- <-; auto.
Qed.

(** loops, by an invariant *)
Lemma runs_for_each {A} (xs : list A) (body : A → G unit)
    (I : list A → database → Prop) d :
  I [] d →
  (∀ done x d1, I done d1 → runs (body x) d1 (λ _ d2, I (done ++ [x]) d2)) →
  runs (for_each xs body) d (λ _ d', I xs d').
Proof.
  intros Hinit Hbody.
  assert (∀ todo done d1, I done d1 →
            runs (for_each todo body) d1 (λ _ d', I (done ++ todo) d')) as Hgen.
  { induction todo as [|x todo IH]; intros done d1 HI; simpl.
    - apply runs_ret. by rewrite app_nil_r.
    - eapply runs_bind; [by apply Hbody|]. intros [] d2 HI2. simpl in HI2.
      eapply runs_conseq; [by apply IH|]. intros [] d' HI'.
      by rewrite <- app_assoc in HI'. }
  by apply (Hgen xs []).
Qed.


Ltac run_pure :=
  eapply runs_bind;
  [ first [ apply runs_uuid | apply runs_choice | apply runs_randint
          | apply runs_random | apply runs_random_time | apply runs_random_dob
          | apply runs_sample ]
  | ].

(** ** Generator: what each INSERT appends *)








(** ** Generator: the critical-finding sentence *)







(** ** Generator: one study *)






(** ** Generator: composing the contract *)






(** ** Generator: runs that do not raise *)


























Section Fresh.
Variable w : world.
Hypothesis uuid4_inj : ∀ j k, uuid4 w j = uuid4 w k → j = k.










End Fresh.





(** the studies of that run, with status and critical flag, the studies of
    its series and the studies of its reports *)
Example generator_demo_run :
  (λ s, (Study.study_id s, Study.report_status s, Study.critical_flag s))
    <$> studies demo_generated
  = [ ("uuid-19", "Unreported", 1%Z); ("uuid-40", "Final", 0%Z);
      ("uuid-69", "Final", 1%Z); ("uuid-108", "Unreported", 1%Z);
      ("uuid-131", "Unreported", 1%Z) ]
  ∧ Series.study_id <$> series demo_generated
    = [ "uuid-19"; "uuid-19"; "uuid-19"; "uuid-40"; "uuid-40"; "uuid-40"; "uuid-40";
        "uuid-69"; "uuid-108"; "uuid-108"; "uuid-108"; "uuid-108";
        "uuid-131"; "uuid-131"; "uuid-131" ]
  ∧ (λ r, (Report.study_id r, Text.contains CRITICAL_MARKER (Report.findings r)))
      <$> reports demo_generated
    = [ ("uuid-40", false); ("uuid-69", true) ].
Proof. repeat split; vm_compute; reflexivity. Qed.

(* ================================================================= *)
(** * Further properties of the code *)

(** ** Login and sessions *)

Lemma api_authorised_not_unauthorized w req token st username :
  SESSIONS st !! token = Some username →
  (api w req token st).1 ≠ inl Unauthorized.
Proof.
  intros Hauth%verify_token_present.
  destruct req; simpl;
    unfold worklist, get_patient, get_study, create_report, get_reports,
      update_report, generate_data, export_data, import_data, aria_query,
      aria_assist_report, aria_transcribe, aria_speak, get_stats;
    rewrite Hauth; simpl;
    repeat match goal with
           | |- context [match ?x with _ => _ end] => destruct x; simpl
           end; done.
Qed.

(** X1: a login whose lower-cased username is a demo user and whose
    password hashes to that user's stored hash answers with the new token
    and the lower-cased username, records exactly that session, leaves the
    database and every other session alone, and from then on no /api/
    operation called with the token ends in Unauthorized. *)
Theorem login_opens_session (a : auth_world) (w : world) (req : LoginRequest)
    (st : state) :
  USERS a !! lower a (username req) = Some (sha256_hexdigest a (password req)) →
  ∃ st',
    login a req st = (inr (token_hex a, lower a (username req)), st')
    ∧ db st' = db st
    ∧ verify_token (token_hex a) st' = inr (lower a (username req))
    ∧ (∀ t, t ≠ token_hex a → SESSIONS st' !! t = SESSIONS st !! t)
    ∧ (∀ r, (api w r (token_hex a) st').1 ≠ inl Unauthorized).
Proof.
  intros Huser. unfold login. rewrite Huser, String.eqb_refl.
  eexists. split; [reflexivity|]. simpl.
  assert (∀ m : gmap string string,
            <[token_hex a := lower a (username req)]> m !! token_hex a
            = Some (lower a (username req))) as Hlook
    by (intros m; apply lookup_insert_eq).
  split; [done|]. split.
  { unfold verify_token. simpl. by rewrite Hlook. }
  split.
  { intros t Hne. by apply lookup_insert_ne. }
  intros r. eapply api_authorised_not_unauthorized. simpl. apply Hlook.
Qed.

Lemma login_opens_session_witness :
  USERS demo_auth !! lower demo_auth "david"
  = Some (sha256_hexdigest demo_auth "kings2024")
  ∧ ∃ st',
      login demo_auth {| username := "david"; password := "kings2024" |} demo_state
      = (inr ("c0ffee", "david"), st')
      ∧ verify_token "c0ffee" st' = inr "david".
Proof.
  split; [reflexivity|].
  destruct (login_opens_session demo_auth demo_world
              {| username := "david"; password := "kings2024" |} demo_state
              ltac:(reflexivity)) as (st' & Hrun & _ & Hverify & _).
  exists st'. split; [exact Hrun | exact Hverify].
Defined.

(** X2: a login whose lower-cased username is not a demo user, or whose
    password hashes to something else than the stored hash, ends in
    Unauthorized and changes nothing: no session is opened. *)
Theorem login_rejects_bad_credentials (a : auth_world) (req : LoginRequest)
    (st : state) :
  USERS a !! lower a (username req) ≠ Some (sha256_hexdigest a (password req)) →
  login a req st = (inl Unauthorized, st).
Proof.
  intros Hbad. unfold login.
  destruct (USERS a !! lower a (username req)) as [stored|]; [|done].
  destruct (String.eqb_spec stored (sha256_hexdigest a (password req))) as [->|]; done.
Qed.

Lemma login_rejects_bad_credentials_witness :
  USERS demo_auth !! lower demo_auth "david"
  ≠ Some (sha256_hexdigest demo_auth "wrong")
  ∧ login demo_auth {| username := "david"; password := "wrong" |} demo_state
    = (inl Unauthorized, demo_state).
Proof.
  assert (USERS demo_auth !! lower demo_auth "david"
          ≠ Some (sha256_hexdigest demo_auth "wrong")) as Hbad
    by (vm_compute; discriminate).
  split; [exact Hbad|].
  exact (login_rejects_bad_credentials demo_auth
           {| username := "david"; password := "wrong" |} demo_state Hbad).
Defined.

(** X3: when the token handed out was not in use, logging in and then
    logging out with that token gives back the state as it was before the
    login. *)
Theorem login_then_logout_restores (a : auth_world) (req : LoginRequest)
    (st : state) :
  SESSIONS st !! token_hex a = None →
  logout (token_hex a) (login a req st).2 = (inr LoggedOut, st).
Proof.
  intros Hfresh. unfold login.
  destruct (USERS a !! _) as [stored|]; [destruct (String.eqb _ _)|];
    unfold logout; simpl; f_equal; destruct st as [d sessions]; simpl in *; f_equal.
  - rewrite delete_insert_eq. by apply delete_id.
  - by apply delete_id.
  - by apply delete_id.
Qed.

Lemma login_then_logout_restores_witness :
  SESSIONS demo_state !! token_hex demo_auth = None
  ∧ logout (token_hex demo_auth)
      (login demo_auth {| username := "admin"; password := "admin123" |} demo_state).2
    = (inr LoggedOut, demo_state).
Proof.
  split; [reflexivity|].
  apply (login_then_logout_restores demo_auth). reflexivity.
Defined.

Ltac api_cases :=
  simpl;
  unfold worklist, get_patient, get_study, create_report, get_reports,
    update_report, generate_data, export_data, import_data, aria_query,
    aria_assist_report, aria_transcribe, aria_speak, get_stats;
  destruct (verify_token _ _); simpl; try done;
  repeat match goal with
         | |- context [match ?x with _ => _ end] => destruct x; simpl
         end; done.

Lemma api_read_only_state w req token st :
  read_only req = true → (api w req token st).2 = st.
Proof. intros Hro. destruct req; try discriminate Hro; api_cases. Qed.

(** X4: whatever the request and the token, an /api/ operation leaves the
    session store as it is; and the operations that only read (worklist,
    patient, study, reports, export, stats and the four assistant calls)
    leave the whole state as it is. *)
Theorem api_keeps_sessions (w : world) (req : request) (token : string) (st : state) :
  SESSIONS (api w req token st).2 = SESSIONS st
  ∧ (read_only req = true → (api w req token st).2 = st).
Proof.
  split.
  - destruct (read_only req) eqn:Hro.
    + by rewrite api_read_only_state.
    + destruct req; try discriminate Hro; api_cases.
  - apply api_read_only_state.
Qed.

(** ** Reading patients, studies and reports *)

Lemma filter_nil_not_elem {A} (f : A → bool) l :
  List.filter f l = [] → ∀ x, x ∈ l → f x = false.
Proof.
  intros Hnil x Hx. destruct (f x) eqn:Hf; [|done].
  assert (x ∈ List.filter f l) as Hin
    by (apply list_elem_of_In, filter_In; split; [by apply list_elem_of_In|done]).
  rewrite Hnil in Hin. by apply elem_of_nil in Hin.
Qed.

Lemma filter_head_elem {A} (f : A → bool) l x rest :
  List.filter f l = x :: rest → x ∈ l ∧ f x = true.
Proof.
  intros Heq.
  assert (In x (List.filter f l)) as Hin by (rewrite Heq; by left).
  apply filter_In in Hin as [Hin Hf]. split; [by apply list_elem_of_In|done].
Qed.

(** X5: an authorised get-patient call answers Not-Found exactly when no
    stored patient has the id; otherwise it answers with a stored patient
    that has the id.  The state is not changed. *)
Theorem get_patient_lookup (patient_id token : string) (st : state)
    (username : string) :
  SESSIONS st !! token = Some username →
  (get_patient patient_id token st = (inl NotFound, st)
   ∧ ∀ p, p ∈ patients (db st) → Patient.patient_id p ≠ patient_id)
  ∨ (∃ p, get_patient patient_id token st = (inr (PatientFound p), st)
          ∧ p ∈ patients (db st) ∧ Patient.patient_id p = patient_id).
Proof.
  intros Hauth%verify_token_present. unfold get_patient. rewrite Hauth.
  destruct (List.filter _ _) as [|p rest] eqn:Hf.
  - left. split; [done|]. intros p Hp.
    apply (filter_nil_not_elem _ _ Hf) in Hp. by apply String.eqb_neq.
  - right. exists p. split; [done|].
    apply filter_head_elem in Hf as [Hin Heq]. split; [done|]. by apply String.eqb_eq.
Qed.

Lemma get_patient_lookup_witness :
  SESSIONS demo_state !! "t0k3n" = Some "david"
  ∧ ((get_patient "p2" "t0k3n" demo_state = (inl NotFound, demo_state)
      ∧ ∀ p, p ∈ patients (db demo_state) → Patient.patient_id p ≠ "p2")
     ∨ (∃ p, get_patient "p2" "t0k3n" demo_state = (inr (PatientFound p), demo_state)
             ∧ p ∈ patients (db demo_state) ∧ Patient.patient_id p = "p2")).
Proof.
  split; [reflexivity|].
  apply (get_patient_lookup "p2" "t0k3n" demo_state "david"). reflexivity.
Defined.

Lemma filter_unique_id (l1 l2 : list Patient.row) p :
  p ∈ l2 →
  Patient.patient_id p ∉ Patient.patient_id <$> l1 →
  NoDup (Patient.patient_id <$> l2) →
  List.filter (λ q, String.eqb (Patient.patient_id q) (Patient.patient_id p)) (l1 ++ l2)
  = [p].
Proof.
  intros Hin Hnot Hnd. rewrite List.filter_app.
  replace (List.filter _ l1) with (@nil Patient.row).
  2:{ symmetry. induction l1 as [|q l1 IH]; [done|]. simpl.
      rewrite fmap_cons, not_elem_of_cons in Hnot. destruct Hnot as [Hne Hnot].
      destruct (String.eqb_spec (Patient.patient_id q) (Patient.patient_id p));
        [congruence|]. by apply IH. }
  simpl. clear Hnot.
  induction l2 as [|q l2 IH]; [by apply elem_of_nil in Hin|].
  rewrite fmap_cons in Hnd. apply NoDup_cons in Hnd as [Hq Hnd]. simpl.
  apply elem_of_cons in Hin as [->|Hin].
  - rewrite String.eqb_refl. f_equal.
    clear IH. induction l2 as [|q' l2 IH]; [done|]. simpl.
    rewrite fmap_cons, not_elem_of_cons in Hq. destruct Hq as [Hne Hq].
    rewrite fmap_cons in Hnd. apply NoDup_cons in Hnd as [_ Hnd].
    destruct (String.eqb_spec (Patient.patient_id q') (Patient.patient_id q));
      [congruence|]. by apply IH.
  - destruct (String.eqb_spec (Patient.patient_id q) (Patient.patient_id p)) as [Heq|];
      [|by apply IH].
    exfalso. apply Hq. rewrite Heq. by apply list_elem_of_fmap_2.
Qed.

(** the import loop hands out patient ids that are new and pairwise distinct *)
Lemma import_rows_new_ids w rows : ∀ imported s,
  ∃ inserted s',
    import_rows w rows imported s = Some ((imported + Z.of_nat (length inserted))%Z, s')
    ∧ patients (conn s') = patients (conn s) ++ inserted
    ∧ NoDup (Patient.patient_id <$> inserted)
    ∧ (∀ p, p ∈ inserted →
         Patient.patient_id p ∉ Patient.patient_id <$> patients (conn s)).
Proof.
  induction rows as [|row rows IH]; intros imported s.
  - exists [], s. simpl. rewrite Z.add_0_r, app_nil_r.
    split; [done|]. split; [done|]. split; [constructor|]. by intros p ?%elem_of_nil.
  - rewrite import_rows_cons, import_row_run. cbv zeta.
    destruct (bound _ _ _) as [d|] eqn:Hins.
    + apply bound_Some in Hins as [_ Hins].
      apply insert_patient_Some in Hins as (Hp & _ & _ & _ & _ & Hid & _).
      destruct (IH (imported + 1)%Z {| cursor := S (S (cursor s)); conn := d |})
        as (inserted & s' & Hrun & Hp' & Hnd & Hnew).
      simpl in *. eexists (_ :: inserted), s'.
      split. { rewrite Hrun. do 2 f_equal. simpl length. lia. }
      split. { by rewrite Hp', Hp, <- app_assoc. }
      split.
      * rewrite fmap_cons. apply NoDup_cons. split; [|done].
        intros (p & Heq & Hin)%list_elem_of_fmap.
        apply (Hnew p Hin). rewrite Hp, fmap_app, elem_of_app. right.
        rewrite <- Heq. by apply list_elem_of_singleton.
      * intros p [->|Hin]%elem_of_cons; [done|].
        intros Hold. apply (Hnew p Hin). rewrite Hp, fmap_app, elem_of_app. by left.
    + destruct (IH imported {| cursor := S (S (cursor s)); conn := conn s |})
        as (inserted & s' & Hrun & Hrest).
      by exists inserted, s'.
Qed.

(** X6: after an authorised import, every patient the import inserted is
    what get-patient answers with for that patient's id. *)
Theorem import_then_get_patient (w : world) (token : string)
    (rows : list (gmap string jval)) (st : state) (username : string) :
  SESSIONS st !! token = Some username →
  ∃ inserted st',
    import_data w token (Some rows) st
    = (inr (Imported (Z.of_nat (length inserted))), st')
    ∧ patients (db st') = patients (db st) ++ inserted
    ∧ ∀ p, p ∈ inserted →
        get_patient (Patient.patient_id p) token st' = (inr (PatientFound p), st').
Proof.
  intros Hauth. pose proof (verify_token_present _ _ _ Hauth) as Hverify.
  unfold import_data. rewrite Hverify.
  destruct (import_rows_new_ids w rows 0 {| cursor := 0; conn := db st |})
    as (inserted & s' & Hrun & Hp & Hnd & Hnew).
  rewrite Hrun. simpl in *.
  exists inserted, (with_db st (conn s')).
  split; [done|]. split; [done|].
  intros p Hin. unfold get_patient.
  rewrite (verify_token_present _ _ username) by done. simpl.
  rewrite Hp, (filter_unique_id _ _ p); auto.
Qed.

Lemma import_then_get_patient_witness :
  SESSIONS demo_state !! "t0k3n" = Some "david"
  ∧ ∃ inserted st',
      import_data demo_world "t0k3n" (Some demo_batch) demo_state
      = (inr (Imported (Z.of_nat (length inserted))), st')
      ∧ patients (db st') = patients (db demo_state) ++ inserted
      ∧ ∀ p, p ∈ inserted →
          get_patient (Patient.patient_id p) "t0k3n" st' = (inr (PatientFound p), st').
Proof.
  split; [reflexivity|].
  apply (import_then_get_patient demo_world "t0k3n" demo_batch demo_state "david").
  reflexivity.
Defined.

Lemma join_studies_spec d j :
  j ∈ join_studies d ↔
  Joined.study j ∈ studies d
  ∧ Joined.patient j ∈ patients d
  ∧ Joined.order j ∈ orders d
  ∧ Patient.patient_id (Joined.patient j) = Study.patient_id (Joined.study j)
  ∧ Order.order_id (Joined.order j) = Study.order_id (Joined.study j).
Proof.
  unfold join_studies. split.
  - intros (s & Hj & Hs)%list_elem_of_bind.
    apply list_elem_of_bind in Hj as (p & Hj & [Hpid Hp]%list_elem_of_filter).
    apply list_elem_of_bind in Hj as (o & Hj & [Hoid Ho]%list_elem_of_filter).
    apply list_elem_of_singleton in Hj as ->. done.
  - destruct j as [s p o]. simpl. intros (Hs & Hp & Ho & Hpid & Hoid).
    apply list_elem_of_bind. exists s. split; [|done].
    apply list_elem_of_bind. exists p. split; [|by apply list_elem_of_filter].
    apply list_elem_of_bind. exists o. split; [|by apply list_elem_of_filter].
    by apply list_elem_of_singleton.
Qed.

Lemma elem_of_list_filter {A} (f : A → bool) l x :
  x ∈ List.filter f l ↔ x ∈ l ∧ f x = true.
Proof. rewrite !list_elem_of_In. apply filter_In. Qed.

Lemma order_by_head_first {A} (le : A → A → bool) l x :
  (∀ a b c, le a b = true → le b c = true → le a c = true) →
  (∀ a b, le a b = true ∨ le b a = true) →
  head (order_by le l) = Some x →
  x ∈ l ∧ ∀ y, y ∈ l → le x y = true.
Proof.
  intros Htrans Htotal Hhead.
  pose proof (order_by_sorted le Htrans Htotal l) as Hsorted.
  assert (∀ y, y ∈ order_by le l ↔ y ∈ l) as Hmem by (intros y; apply order_by_elem_of).
  destruct (order_by le l) as [|x' rest]; [done|]. injection Hhead as ->.
  split; [apply Hmem; by left|].
  intros y [->|Hy]%Hmem%elem_of_cons.
  - by destruct (Htotal x x).
  - apply StronglySorted_inv in Hsorted as [_ Hall].
    rewrite Forall_forall in Hall. by apply Hall.
Qed.

Lemma order_by_head_none {A} (le : A → A → bool) l :
  head (order_by le l) = None ↔ l = [].
Proof.
  pose proof (order_by_length le l) as Hlen.
  destruct (order_by le l), l; simpl in *; split; try done; lia.
Qed.

Lemma StronglySorted_mono {A} (R R' : relation A) l :
  (∀ a b, R a b → R' a b) → StronglySorted R l → StronglySorted R' l.
Proof.
  intros Himpl. induction 1 as [|x l Hs IH Hall]; constructor; [done|].
  eapply Forall_impl; [exact Hall|]. auto.
Qed.

Lemma Z_leb_trans a b c : (a <=? b)%Z = true → (b <=? c)%Z = true → (a <=? c)%Z = true.
Proof. rewrite !Z.leb_le. lia. Qed.

Lemma Z_leb_total a b : (a <=? b)%Z = true ∨ (b <=? a)%Z = true.
Proof. rewrite !Z.leb_le. lia. Qed.

(** X7: an authorised get-study call answers Not-Found exactly when no
    stored study with the id has both its patient and its order stored (the
    study row alone is not enough).  Otherwise it answers with such a study
    joined to its patient and order; with the series rows of the study, all
    of them, by ascending series_number; and with a report of the study
    whose created_at no other report of the study exceeds, or with no report
    exactly when the study has none. *)
Theorem get_study_detail (study_id token : string) (st : state) (username : string) :
  SESSIONS st !! token = Some username →
  (get_study study_id token st = (inl NotFound, st)
   ∧ ∀ j, j ∈ join_studies (db st) → Study.study_id (Joined.study j) ≠ study_id)
  ∨ (∃ j srs report,
       get_study study_id token st = (inr (StudyFound j srs report), st)
       ∧ Study.study_id (Joined.study j) = study_id
       ∧ Joined.study j ∈ studies (db st)
       ∧ Joined.patient j ∈ patients (db st)
       ∧ Joined.order j ∈ orders (db st)
       ∧ Patient.patient_id (Joined.patient j) = Study.patient_id (Joined.study j)
       ∧ Order.order_id (Joined.order j) = Study.order_id (Joined.study j)
       ∧ srs ≡ₚ List.filter (λ x, String.eqb (Series.study_id x) study_id)
                            (series (db st))
       ∧ StronglySorted (λ a b, (Series.series_number a ≤ Series.series_number b)%Z) srs
       ∧ (report = None ↔
          ∀ r, r ∈ reports (db st) → Report.study_id r ≠ study_id)
       ∧ (∀ r, report = Some r →
            r ∈ reports (db st) ∧ Report.study_id r = study_id
            ∧ ∀ r', r' ∈ reports (db st) → Report.study_id r' = study_id →
                String.leb (Report.created_at r') (Report.created_at r) = true)).
Proof.
  intros Hauth%verify_token_present. unfold get_study. rewrite Hauth. cbv zeta.
  destruct (List.filter _ (join_studies _)) as [|j rest] eqn:Hf.
  - left. split; [done|]. intros j Hj.
    apply (filter_nil_not_elem _ _ Hf) in Hj. by apply String.eqb_neq.
  - right. eexists j, _, _. split; [reflexivity|].
    apply filter_head_elem in Hf as [Hin Heq]. apply String.eqb_eq in Heq.
    apply join_studies_spec in Hin as (Hs & Hp & Ho & Hpid & Hoid).
    repeat (split; [done|]).
    split. { unfold order_by. apply merge_sort_Permutation. }
    split.
    { eapply StronglySorted_mono; [|apply order_by_sorted].
      - intros a b Hab. by apply Z.leb_le.
      - intros a b c. apply Z_leb_trans.
      - intros a b. apply Z_leb_total. }
    split.
    + rewrite order_by_head_none. split.
      * intros Hnil r Hr. apply (filter_nil_not_elem _ _ Hnil) in Hr.
        by apply String.eqb_neq.
      * intros Hnone. destruct (List.filter _ _) as [|r l] eqn:Hfr; [done|].
        apply filter_head_elem in Hfr as [Hr Hrid]. apply String.eqb_eq in Hrid.
        by destruct (Hnone r Hr).
    + intros r Hhead. apply order_by_head_first in Hhead as [Hr Hmax].
      * apply elem_of_list_filter in Hr as [Hr Hrid]. apply String.eqb_eq in Hrid.
        split; [done|]. split; [done|]. intros r' Hr' Hrid'.
        apply Hmax, elem_of_list_filter. split; [done|]. by apply String.eqb_eq.
      * intros a b c Hab Hbc. by apply (text_leb_trans _ _ _ Hbc Hab).
      * intros a b. destruct (text_leb_total (Report.created_at a) (Report.created_at b)); auto.
Qed.

Lemma get_study_detail_witness :
  SESSIONS demo_state !! "t0k3n" = Some "david"
  ∧ ((get_study "s1" "t0k3n" demo_state = (inl NotFound, demo_state)
      ∧ ∀ j, j ∈ join_studies (db demo_state) → Study.study_id (Joined.study j) ≠ "s1")
     ∨ (∃ j srs report,
          get_study "s1" "t0k3n" demo_state = (inr (StudyFound j srs report), demo_state)
          ∧ Study.study_id (Joined.study j) = "s1"
          ∧ Joined.study j ∈ studies (db demo_state)
          ∧ Joined.patient j ∈ patients (db demo_state)
          ∧ Joined.order j ∈ orders (db demo_state)
          ∧ Patient.patient_id (Joined.patient j) = Study.patient_id (Joined.study j)
          ∧ Order.order_id (Joined.order j) = Study.order_id (Joined.study j)
          ∧ srs ≡ₚ List.filter (λ x, String.eqb (Series.study_id x) "s1")
                               (series (db demo_state))
          ∧ StronglySorted (λ a b, (Series.series_number a ≤ Series.series_number b)%Z) srs
          ∧ (report = None ↔
             ∀ r, r ∈ reports (db demo_state) → Report.study_id r ≠ "s1")
          ∧ (∀ r, report = Some r →
               r ∈ reports (db demo_state) ∧ Report.study_id r = "s1"
               ∧ ∀ r', r' ∈ reports (db demo_state) → Report.study_id r' = "s1" →
                   String.leb (Report.created_at r') (Report.created_at r) = true))).
Proof.
  split; [reflexivity|].
  apply (get_study_detail "s1" "t0k3n" demo_state "david"). reflexivity.
Defined.

(** on the demo database study s1 is found with its one report *)
Example get_study_demo :
  ∃ j, get_study "s1" "t0k3n" demo_state
       = (inr (StudyFound j [] (Some (demo_report "r1" "s1"))), demo_state).
Proof. eexists. vm_compute. reflexivity. Qed.

(** X8: an authorised list-reports call answers with rows sorted by
    updated_at, latest first, and lists exactly the combinations of a stored
    report, a stored study with the report's study_id and a stored patient
    with the study's patient_id: a report whose study is not stored is not
    listed. *)
Theorem get_reports_listing (token : string) (st : state) (username : string) :
  SESSIONS st !! token = Some username →
  ∃ rows,
    get_reports token st = (inr (Reports rows), st)
    ∧ StronglySorted
        (λ a b, String.leb (Report.updated_at (b.1.1)) (Report.updated_at (a.1.1)) = true)
        rows
    ∧ (∀ r s p, (r, s, p) ∈ rows ↔
         r ∈ reports (db st) ∧ s ∈ studies (db st) ∧ p ∈ patients (db st)
         ∧ Report.study_id r = Study.study_id s
         ∧ Study.patient_id s = Patient.patient_id p)
    ∧ (∀ r, (∀ s, s ∈ studies (db st) → Study.study_id s ≠ Report.study_id r) →
         ∀ s p, (r, s, p) ∉ rows).
Proof.
  intros Hauth%verify_token_present. unfold get_reports. rewrite Hauth. cbv zeta.
  eexists. split; [reflexivity|].
  assert (∀ r s p,
            (r, s, p) ∈ order_by
              (λ a b, Text.leb (Report.updated_at (b.1.1)) (Report.updated_at (a.1.1)))
              (r ← reports (db st);
               s ← filter (λ s, Report.study_id r = Study.study_id s) (studies (db st));
               p ← filter (λ p, Study.patient_id s = Patient.patient_id p) (patients (db st));
               [(r, s, p)])
            ↔ r ∈ reports (db st) ∧ s ∈ studies (db st) ∧ p ∈ patients (db st)
              ∧ Report.study_id r = Study.study_id s
              ∧ Study.patient_id s = Patient.patient_id p) as Hmem.
  { intros r s p. rewrite order_by_elem_of. split.
    - intros (r' & Hj & Hr)%list_elem_of_bind.
      apply list_elem_of_bind in Hj as (s' & Hj & [Hsid Hs]%list_elem_of_filter).
      apply list_elem_of_bind in Hj as (p' & Hj & [Hpid Hp]%list_elem_of_filter).
      apply list_elem_of_singleton in Hj. injection Hj as -> -> ->. done.
    - intros (Hr & Hs & Hp & Hsid & Hpid).
      apply list_elem_of_bind. exists r. split; [|done].
      apply list_elem_of_bind. exists s. split; [|by apply list_elem_of_filter].
      apply list_elem_of_bind. exists p. split; [|by apply list_elem_of_filter].
      by apply list_elem_of_singleton. }
  split.
  { apply order_by_sorted.
    - intros a b c Hab Hbc. by apply (text_leb_trans _ _ _ Hbc Hab).
    - intros a b.
      destruct (text_leb_total (Report.updated_at (a.1.1)) (Report.updated_at (b.1.1))); auto. }
  split; [exact Hmem|].
  intros r Hdangling s p (_ & Hs & _ & Hsid & _)%Hmem.
  by apply (Hdangling s Hs).
Qed.

Lemma get_reports_listing_witness :
  SESSIONS demo_state !! "t0k3n" = Some "david"
  ∧ ∃ rows,
      get_reports "t0k3n" demo_state = (inr (Reports rows), demo_state)
      ∧ ∀ r s p, (r, s, p) ∈ rows ↔
          r ∈ reports (db demo_state) ∧ s ∈ studies (db demo_state)
          ∧ p ∈ patients (db demo_state)
          ∧ Report.study_id r = Study.study_id s
          ∧ Study.patient_id s = Patient.patient_id p.
Proof.
  split; [reflexivity|].
  destruct (get_reports_listing "t0k3n" demo_state "david" ltac:(reflexivity))
    as (rows & Hrun & _ & Hmem & _).
  exists rows. split; [exact Hrun | exact Hmem].
Defined.

(** ** Worklist filters and search *)






(** the search is by MRN here, in small letters: one Emergency row matches *)
Example worklist_demo_search :
  (λ j, Study.study_id (Joined.study j))
    <$> worklist_rows "XR" "" "Emergency" "kch1" (-1) 0 demo_db = ["s2"].
Proof. vm_compute. reflexivity. Qed.

Lemma like_percent_unfold pat s :
  Text.like (String "%" pat) s
  = Text.like pat s
    || match s with
       | EmptyString => false
       | String _ rest => Text.like (String "%" pat) rest
       end.
Proof. by destruct s. Qed.

Lemma like_percent_skip pat before s :
  Text.like pat s = true → Text.like (String "%" pat) (before +:+ s) = true.
Proof.
  intros Hlike. induction before as [|c before IH].
  - change ("" +:+ s) with s. rewrite like_percent_unfold, Hlike. done.
  - change (String c before +:+ s) with (String c (before +:+ s)).
    rewrite like_percent_unfold, IH. apply orb_true_r.
Qed.

Lemma like_percent_end s : Text.like "%" s = true.
Proof.
  induction s as [|c s IH]; [done|].
  rewrite like_percent_unfold, IH. apply orb_true_r.
Qed.

Lemma like_literal pat : ∀ text after,
  wildcard_free pat = true → casefold text = casefold pat →
  Text.like (pat +:+ "%") (text +:+ after) = true.
Proof.
  induction pat as [|c pat IH]; intros [|d text] after Hfree Hfold; try done.
  - apply like_percent_end.
  - change (String c pat +:+ "%") with (String c (pat +:+ "%")).
    change (String d text +:+ after) with (String d (text +:+ after)).
    simpl in Hfree, Hfold.
    apply andb_prop in Hfree as [Hc Hfree]. apply andb_prop in Hc as [Hc1 Hc2].
    apply negb_true_iff in Hc1, Hc2. injection Hfold as Hd Hfold.
    cbn [Text.like]. rewrite Hc1, Hc2, Hd, Ascii.eqb_refl. simpl. by apply IH.
Qed.

(** X10: the worklist search finds text inside a field whatever the case of
    its ASCII letters.  When the search text has no [%] and no [_] and
    occurs, up to the case of ASCII letters, anywhere in the patient's MRN,
    in "first_name last_name" or in the study description, a row passes the
    search filter (and the whole WHERE clause when no other filter is
    given). *)
Theorem worklist_search_finds_substring (search before found after : string)
    (j : Joined.row) :
  wildcard_free search = true →
  casefold found = casefold search →
  Patient.mrn (Joined.patient j) = before +:+ found +:+ after
  ∨ Patient.first_name (Joined.patient j) +:+ " " +:+ Patient.last_name (Joined.patient j)
    = before +:+ found +:+ after
  ∨ Study.description (Joined.study j) = before +:+ found +:+ after →
  worklist_where "" "" "" search j = true.
Proof.
  intros Hfree Hfold Hfield.
  assert (Text.like ("%" +:+ search +:+ "%") (before +:+ found +:+ after) = true) as Hlike.
  { change ("%" +:+ search +:+ "%") with (String "%" (search +:+ "%")).
    by apply like_percent_skip, like_literal. }
  unfold worklist_where. cbv zeta. cbn [String.eqb andb].
  destruct (String.eqb search ""); [done|].
  destruct Hfield as [->|[->| ->]]; rewrite Hlike; by rewrite ?orb_true_r.
Qed.

Lemma worklist_search_finds_substring_witness :
  wildcard_free "arah sm" = true
  ∧ casefold "arah Sm" = casefold "arah sm"
  ∧ worklist_where "" "" "" "arah sm"
      {| Joined.study := demo_study "s1" "p1" "o1" "2024-05-03 10:00" 0;
         Joined.patient := demo_patient "p1" "KCH1000001" "Sarah";
         Joined.order := demo_order "o1" "p1" "Routine" |} = true.
Proof.
  split; [reflexivity|]. split; [reflexivity|].
  apply (worklist_search_finds_substring "arah sm" "S" "arah Sm" "ith");
    [reflexivity|reflexivity|]. right. left. reflexivity.
Defined.

(** ** Invariants of the writing operations *)

Section Keeps.
Variable I : database → Prop.
Hypothesis keeps_patient : ∀ r d d', insert_patient r d = Some d' → I d → I d'.
Hypothesis keeps_order : ∀ r d d', insert_order r d = Some d' → I d → I d'.
Hypothesis keeps_study : ∀ r d d', insert_study r d = Some d' → I d → I d'.
Hypothesis keeps_series : ∀ r d d', insert_series r d = Some d' → I d → I d'.
Hypothesis keeps_report : ∀ r d d', insert_report r d = Some d' → I d → I d'.

Lemma keeps_ret {A} (a : A) : keeps I (mret a).
Proof. intros d HI. by apply runs_ret. Qed.

Lemma keeps_bind {A B} (m : G A) (f : A → G B) :
  keeps I m → (∀ a, keeps I (f a)) → keeps I (m ≫= f).
Proof.
  intros Hm Hf d HI. eapply runs_bind; [by apply Hm|].
  intros a d1 HI1. by apply Hf.
Qed.

Lemma keeps_drawing {A} (m : G A) (P : A → Prop) :
  (∀ d, runs m d (λ a d', d' = d ∧ P a)) → keeps I m.
Proof.
  intros Hm d HI. eapply runs_conseq; [apply Hm|]. by intros a d' [-> _].
Qed.

Lemma keeps_execute ins :
  (∀ d d', ins d = Some d' → I d → I d') → keeps I (execute ins).
Proof.
  intros Hins d HI. eapply runs_conseq; [apply runs_execute|].
  intros [] d' Hd. by eapply Hins.
Qed.

Lemma keeps_try_execute ins :
  (∀ d d', ins d = Some d' → I d → I d') → keeps I (try_execute ins).
Proof.
  intros Hins d HI. eapply runs_conseq; [apply runs_try_execute|].
  intros ok d' [[_ Hd]|[_ ->]]; [by eapply Hins|done].
Qed.

Lemma keeps_for_each {A} (xs : list A) (body : A → G unit) :
  (∀ x, keeps I (body x)) → keeps I (for_each xs body).
Proof.
  intros Hbody. induction xs as [|x xs IH]; simpl.
  - apply keeps_ret.
  - apply keeps_bind; [apply Hbody|]. by intros [].
Qed.

Lemma keeps_for_range {S} (n : nat) (body : S → G S) :
  (∀ acc, keeps I (body acc)) → ∀ acc, keeps I (for_range n body acc).
Proof.
  intros Hbody. induction n as [|n IH]; intros acc; simpl.
  - apply keeps_ret.
  - apply keeps_bind; [apply Hbody|]. apply IH.
Qed.

Ltac keeps_step :=
  first
    [ apply keeps_ret
    | apply keeps_execute; eauto
    | apply keeps_try_execute; eauto
    | apply (keeps_drawing _ _ (runs_uuid _))
    | apply (keeps_drawing _ _ (runs_random _))
    | apply (keeps_drawing _ _ (runs_random_dob _))
    | apply (keeps_drawing _ _ (runs_random_time _ _))
    | apply (keeps_drawing _ _ (runs_randint _ _ _))
    | apply (keeps_drawing _ _ (runs_choice _ _))
    | apply (keeps_drawing _ _ (runs_sample _ _ _))
    | apply keeps_bind; [|intros ?] ].

Lemma gen_series_keeps w sid sn : keeps I (gen_series w sid sn).
Proof. unfold gen_series. repeat keeps_step. Qed.

Lemma gen_report_keeps w sid modality body_part report_status is_critical :
  keeps I (gen_report w sid modality body_part report_status is_critical).
Proof.
  unfold gen_report. keeps_step; [keeps_step|].
  keeps_step; [destruct is_critical; repeat keeps_step|].
  repeat keeps_step.
Qed.

Lemma gen_study_keeps w pid critical_pct : keeps I (gen_study w pid critical_pct).
Proof.
  unfold gen_study. keeps_step; [keeps_step|].
  match goal with
  | tmpl : (string * string * string * string)%type |- _ =>
      destruct tmpl as [[[modality body_part] description] priority]
  end.
  do 16 (keeps_step; [keeps_step|]).
  keeps_step; [apply keeps_for_each; intros sn; apply gen_series_keeps|].
  destruct (bool_decide _); [apply gen_report_keeps | apply keeps_ret].
Qed.

Lemma gen_patient_keeps w studies_per_patient critical_pct counts :
  keeps I (gen_patient w studies_per_patient critical_pct counts).
Proof.
  unfold gen_patient. destruct counts as [patients_created studies_created].
  do 13 (keeps_step; [keeps_step|]).
  match goal with
  | |- keeps _ (if ?ok then _ else _) => destruct ok; [|apply keeps_ret]
  end.
  keeps_step; [keeps_step|].
  keeps_step; [|apply keeps_ret].
  apply keeps_for_range. intros acc.
  keeps_step; [apply gen_study_keeps | apply keeps_ret].
Qed.

Lemma generate_keeps w n_patients studies_per_patient critical_pct d counts d' :
  generate_patients_and_studies w n_patients studies_per_patient critical_pct d
  = Some (counts, d') →
  I d → I d'.
Proof.
  unfold generate_patients_and_studies.
  destruct (for_range _ _ _ _) as [[c s]|] eqn:Hrun; [|done].
  intros [= <- <-] HI.
  exact (keeps_for_range _ _ (gen_patient_keeps w studies_per_patient critical_pct)
           _ d HI {| cursor := 0; conn := d |} c s eq_refl Hrun).
Qed.

Lemma import_rows_keeps w rows : ∀ imported, keeps I (import_rows w rows imported).
Proof.
  induction rows as [|row rows IH]; intros imported; simpl.
  - apply keeps_ret.
  - apply keeps_bind; [|intros n; apply IH].
    unfold import_row. repeat keeps_step.
    intros d d' [_ Hins]%bound_Some. by eapply keeps_patient.
Qed.
End Keeps.

Lemma NoDup_snoc_fresh {A} (l : list A) x : NoDup l → x ∉ l → NoDup (l ++ [x]).
Proof.
  intros Hnd Hx. apply NoDup_app. split; [done|]. split.
  - intros y Hy ->%list_elem_of_singleton. done.
  - apply NoDup_singleton.
Qed.

Lemma insert_patient_keys r d d' :
  insert_patient r d = Some d' → keys_unique d → keys_unique d'.
Proof.
  intros (Hp & Ho & Hst & Hse & Hr & Hid & Hmrn)%insert_patient_Some.
  unfold keys_unique. rewrite Hp, Ho, Hst, Hse, Hr, !fmap_app. simpl.
  intros (H1 & H2 & H3 & H4 & H5 & H6).
  repeat split; try done; by apply NoDup_snoc_fresh.
Qed.

Lemma insert_order_keys r d d' :
  insert_order r d = Some d' → keys_unique d → keys_unique d'.
Proof.
  unfold insert_order. destruct (bool_decide _) eqn:Hin; [done|]. intros [= <-].
  apply bool_decide_eq_false in Hin.
  unfold keys_unique. simpl. rewrite fmap_app. simpl.
  intros (H1 & H2 & H3 & H4 & H5 & H6).
  repeat split; try done; by apply NoDup_snoc_fresh.
Qed.

Lemma insert_study_keys r d d' :
  insert_study r d = Some d' → keys_unique d → keys_unique d'.
Proof.
  unfold insert_study. destruct (bool_decide _) eqn:Hin; [done|]. intros [= <-].
  apply bool_decide_eq_false in Hin.
  unfold keys_unique. simpl. rewrite fmap_app. simpl.
  intros (H1 & H2 & H3 & H4 & H5 & H6).
  repeat split; try done; by apply NoDup_snoc_fresh.
Qed.

Lemma insert_series_keys r d d' :
  insert_series r d = Some d' → keys_unique d → keys_unique d'.
Proof.
  unfold insert_series. destruct (bool_decide _) eqn:Hin; [done|]. intros [= <-].
  apply bool_decide_eq_false in Hin.
  unfold keys_unique. simpl. rewrite fmap_app. simpl.
  intros (H1 & H2 & H3 & H4 & H5 & H6).
  repeat split; try done; by apply NoDup_snoc_fresh.
Qed.

Lemma insert_report_keys r d d' :
  insert_report r d = Some d' → keys_unique d → keys_unique d'.
Proof.
  unfold insert_report. destruct (bool_decide _) eqn:Hin; [done|]. intros [= <-].
  apply bool_decide_eq_false in Hin.
  unfold keys_unique. simpl. rewrite fmap_app. simpl.
  intros (H1 & H2 & H3 & H4 & H5 & H6).
  repeat split; try done; by apply NoDup_snoc_fresh.
Qed.

Lemma update_rows_ids w report_id data (l : list Report.row) :
  Report.report_id <$> (update_row w report_id data <$> l) = Report.report_id <$> l.
Proof.
  rewrite <- list_fmap_compose. apply list_fmap_ext. intros i r _. simpl.
  unfold update_row. by destruct (String.eqb _ _).
Qed.

(** X11: the primary keys of the five tables and the patients' MRNs stay
    unique: if no key occurs twice before an /api/ operation (whatever the
    request, the token and the values drawn), none occurs twice after it. *)
Theorem api_keeps_keys_unique (w : world) (req : request) (token : string)
    (st : state) :
  keys_unique (db st) → keys_unique (db (api w req token st).2).
Proof.
  intros Hkeys.
  destruct (read_only req) eqn:Hro.
  { by rewrite api_read_only_state. }
  destruct req; try discriminate Hro; simpl.
  - unfold create_report. destruct (verify_token token st); [done|].
    destruct (data !! "study_id"); [|done].
    destruct (bound _ _ _) as [d|] eqn:Hins; [|done].
    apply bound_Some in Hins as [_ Hins].
    simpl. by eapply insert_report_keys.
  - unfold update_report. destruct (verify_token token st); [done|].
    destruct (bound _ _ _) as [d|] eqn:Hupd; [|done].
    apply bound_Some in Hupd as [_ [= <-]].
    destruct Hkeys as (H1 & H2 & H3 & H4 & H5 & H6).
    unfold keys_unique. simpl. by rewrite update_rows_ids.
  - unfold generate_data. destruct (verify_token token st); [done|].
    destruct (generate_patients_and_studies _ _ _ _ _) as [[[pc sc] d]|] eqn:Hgen; [|done].
    simpl. eapply (generate_keeps keys_unique); eauto using insert_patient_keys,
      insert_order_keys, insert_study_keys, insert_series_keys, insert_report_keys.
  - unfold import_data. destruct (verify_token token st); [done|].
    destruct payload as [rows|]; [|done].
    destruct (import_rows _ _ _ _) as [[n gs]|] eqn:Hrun; [|done]. simpl.
    exact (import_rows_keeps keys_unique insert_patient_keys w rows 0 (db st) Hkeys
             {| cursor := 0; conn := db st |} n gs eq_refl Hrun).
Qed.

Lemma demo_keys_unique : keys_unique demo_db.
Proof.
  unfold keys_unique.
  repeat split; vm_compute; repeat (constructor; [by rewrite ?elem_of_cons, elem_of_nil; intuition discriminate|]); constructor.
Qed.

Lemma api_keeps_keys_unique_witness :
  keys_unique (db demo_state)
  ∧ keys_unique
      (db (api demo_world (PostGenerate {[ "patients" := 2%Z ]}) "t0k3n" demo_state).2).
Proof.
  split; [exact demo_keys_unique|].
  apply api_keeps_keys_unique. exact demo_keys_unique.
Defined.

(** ** The join behind the worklist *)






(** ** Statistics *)

Lemma sum_list_perm (l k : list nat) : l ≡ₚ k → sum_list l = sum_list k.
Proof. induction 1; simpl; lia. Qed.

Lemma modality_counts_cons s l :
  modality_counts (s :: l)
  = <[Study.modality s := S (default 0%nat (modality_counts l !! Study.modality s))]>
      (modality_counts l).
Proof. reflexivity. Qed.

Lemma modality_counts_total (l : list Study.row) :
  sum_list ((map_to_list (modality_counts l)).*2) = length l.
Proof.
  induction l as [|s l IH]; [done|].
  rewrite modality_counts_cons. cbn [length]. rewrite <- IH. clear IH.
  destruct (modality_counts l !! Study.modality s) as [n|] eqn:Hm; cbn [default].
  - rewrite <- insert_delete_eq.
    rewrite (sum_list_perm _ _
               (fmap_Permutation snd _ _
                  (map_to_list_insert _ _ _ (lookup_delete_eq _ _)))).
    rewrite <- (sum_list_perm _ _
                  (fmap_Permutation snd _ _ (map_to_list_delete _ _ _ Hm))).
    rewrite !fmap_cons. simpl. lia.
  - rewrite (sum_list_perm _ _
               (fmap_Permutation snd _ _ (map_to_list_insert _ _ _ Hm))).
    rewrite fmap_cons. simpl. lia.
Qed.

Lemma modality_counts_lookup (l : list Study.row) m :
  modality_counts l !! m
  = let n := length (List.filter (λ s, String.eqb (Study.modality s) m) l) in
    if decide (n = 0)%nat then None else Some n.
Proof.
  induction l as [|s l IH]; [done|].
  rewrite modality_counts_cons. cbn [List.filter].
  destruct (String.eqb_spec (Study.modality s) m) as [->|Hne].
  - rewrite lookup_insert_eq, IH. cbv zeta. cbn [length].
    destruct (decide (length _ = 0)%nat) as [->|]; [done|].
    by destruct (decide (S _ = 0)%nat).
  - by rewrite lookup_insert_ne.
Qed.

(** X13: an authorised stats call counts what is stored: total is the
    number of studies and patients the number of patients; critical and
    unreported do not exceed total; the per-modality dictionary has an entry
    for exactly the modalities that occur, each with the number of studies of
    that modality, and its values add up to total. *)
Theorem get_stats_counts (token : string) (st : state) (username : string) :
  SESSIONS st !! token = Some username →
  ∃ total critical unreported npatients modalities,
    get_stats token st
    = (inr (Stats total critical unreported npatients modalities), st)
    ∧ total = length (studies (db st))
    ∧ npatients = length (patients (db st))
    ∧ (critical ≤ total)%nat
    ∧ (unreported ≤ total)%nat
    ∧ (∀ m n, modalities !! m = Some n ↔
         (n ≠ 0)%nat
         ∧ n = length (List.filter (λ s, String.eqb (Study.modality s) m)
                                   (studies (db st))))
    ∧ sum_list ((map_to_list modalities).*2) = total.
Proof.
  intros Hauth%verify_token_present. unfold get_stats. rewrite Hauth.
  eexists _, _, _, _, _. split; [reflexivity|]. simpl.
  split; [done|]. split; [done|].
  split; [apply List.filter_length_le|]. split; [apply List.filter_length_le|].
  split; [|apply modality_counts_total].
  intros m n. rewrite modality_counts_lookup. simpl.
  destruct (decide (length _ = 0)%nat) as [Hz|Hnz]; split.
  - done.
  - intros [Hne ->]. done.
  - intros [= <-]. done.
  - intros [_ ->]. done.
Qed.

Lemma get_stats_counts_witness :
  SESSIONS demo_state !! "t0k3n" = Some "david"
  ∧ ∃ total critical unreported npatients modalities,
      get_stats "t0k3n" demo_state
      = (inr (Stats total critical unreported npatients modalities), demo_state)
      ∧ total = length (studies (db demo_state))
      ∧ sum_list ((map_to_list modalities).*2) = total.
Proof.
  split; [reflexivity|].
  destruct (get_stats_counts "t0k3n" demo_state "david" ltac:(reflexivity))
    as (total & critical & unreported & npatients & modalities
        & Hrun & Htotal & _ & _ & _ & _ & Hsum).
  exists total, critical, unreported, npatients, modalities.
  split; [exact Hrun|]. split; [exact Htotal | exact Hsum].
Defined.

(** ** Export *)

Lemma export_dict_keys j : dom (export_dict j) = list_to_set (C := gset string) export_columns.
Proof. unfold export_dict. cbv zeta. by rewrite dom_list_to_map_L. Qed.

Lemma export_dict_scheduled_time j :
  get_text (export_dict j) "scheduled_time" "" = Study.scheduled_time (Joined.study j).
Proof. reflexivity. Qed.

(** X14: an authorised export answers with one row per stored study that
    has its patient and order stored, latest scheduled_time first, each row
    a dictionary with exactly the thirteen exported columns.  As CSV the
    header is those columns when there is a row and the file is empty,
    header included, when there is none; any other format gives the rows as
    JSON.  Nothing is changed. *)
Theorem export_data_rows (token fmt : string) (st : state) (username : string) :
  SESSIONS st !! token = Some username →
  ∃ data,
    export_data token fmt st
    = (inr (if String.eqb fmt "csv"
            then ExportCsv (match data with [] => [] | _ => export_columns end) data
            else ExportJson data), st)
    ∧ length data = length (join_studies (db st))
    ∧ (∀ row, row ∈ data → dom row = list_to_set (C := gset string) export_columns)
    ∧ StronglySorted
        (λ a b, String.leb (get_text b "scheduled_time" "")
                           (get_text a "scheduled_time" "") = true) data.
Proof.
  intros Hauth%verify_token_present. unfold export_data. rewrite Hauth. cbv zeta.
  exists (export_rows (db st)). split.
  { destruct (String.eqb fmt "csv"); [|done]. by destruct (export_rows (db st)). }
  unfold export_rows. split; [by rewrite length_fmap, order_by_length|]. split.
  - intros row (j & -> & _)%list_elem_of_fmap. apply export_dict_keys.
  - eapply StronglySorted_fmap; [|apply order_by_sorted].
    + intros a b Hab. by rewrite !export_dict_scheduled_time.
    + intros a b c Hab Hbc. by apply (text_leb_trans _ _ _ Hbc Hab).
    + intros a b.
      destruct (text_leb_total (Study.scheduled_time (Joined.study a))
                               (Study.scheduled_time (Joined.study b))); auto.
Qed.

Lemma export_data_rows_witness :
  SESSIONS (with_db demo_state empty_db) !! "t0k3n" = Some "david"
  ∧ ∃ data,
      export_data "t0k3n" "csv" (with_db demo_state empty_db)
      = (inr (if String.eqb "csv" "csv"
              then ExportCsv (match data with [] => [] | _ => export_columns end) data
              else ExportJson data), with_db demo_state empty_db)
      ∧ length data = length (join_studies (db (with_db demo_state empty_db))).
Proof.
  split; [reflexivity|].
  destruct (export_data_rows "t0k3n" "csv" (with_db demo_state empty_db) "david"
              ltac:(reflexivity)) as (data & Hrun & Hlen & _).
  exists data. split; [exact Hrun | exact Hlen].
Defined.

(** with no study stored the CSV export is the empty file *)
Example export_csv_empty :
  export_data "t0k3n" "csv" (with_db demo_state empty_db)
  = (inr (ExportCsv [] []), with_db demo_state empty_db).
Proof. reflexivity. Qed.

(** ** Generator: the rows it writes *)

Lemma runs_for_range_acc {S} (n : nat) (body : S → G S)
    (I : S → database → Prop) d acc :
  I acc d →
  (∀ acc d1, I acc d1 → runs (body acc) d1 I) →
  runs (for_range n body acc) d I.
Proof.
  intros Hinit Hbody. revert d acc Hinit.
  induction n as [|n IH]; intros d acc Hinit; simpl.
  - by apply runs_ret.
  - eapply runs_bind; [by apply Hbody|]. intros acc' d1 HI. by apply IH.
Qed.

Lemma insert_order_tables r d d' :
  insert_order r d = Some d' →
  patients d' = patients d ∧ orders d' = orders d ++ [r] ∧ studies d' = studies d
  ∧ series d' = series d ∧ reports d' = reports d.
Proof. unfold insert_order. destruct (bool_decide _); [done|]. by intros [= <-]. Qed.

Lemma insert_study_tables r d d' :
  insert_study r d = Some d' →
  patients d' = patients d ∧ orders d' = orders d ∧ studies d' = studies d ++ [r]
  ∧ series d' = series d ∧ reports d' = reports d.
Proof. unfold insert_study. destruct (bool_decide _); [done|]. by intros [= <-]. Qed.

Lemma insert_series_tables r d d' :
  insert_series r d = Some d' →
  patients d' = patients d ∧ orders d' = orders d ∧ studies d' = studies d
  ∧ series d' = series d ++ [r] ∧ reports d' = reports d.
Proof. unfold insert_series. destruct (bool_decide _); [done|]. by intros [= <-]. Qed.

Lemma insert_report_tables r d d' :
  insert_report r d = Some d' →
  patients d' = patients d ∧ orders d' = orders d ∧ studies d' = studies d
  ∧ series d' = series d ∧ reports d' = reports d ++ [r].
Proof. unfold insert_report. destruct (bool_decide _); [done|]. by intros [= <-]. Qed.

(** the series loop of one study: rows numbered as the loop counts *)
Lemma gen_series_rows w (s : Study.row) ns d :
  Forall (λ sn, 1 ≤ sn ≤ 4)%Z ns →
  runs (for_each ns (gen_series w (Study.study_id s))) d
    (λ _ d', ∃ srs,
       patients d' = patients d ∧ orders d' = orders d ∧ studies d' = studies d
       ∧ series d' = series d ++ srs ∧ reports d' = reports d
       ∧ Forall (series_row_ok s) srs).
Proof.
  intros Hns.
  eapply runs_conseq.
  { apply (runs_for_each ns _
             (λ done d', Forall (λ sn, 1 ≤ sn ≤ 4)%Z done → ∃ srs,
                patients d' = patients d ∧ orders d' = orders d ∧ studies d' = studies d
                ∧ series d' = series d ++ srs ∧ reports d' = reports d
                ∧ Forall (series_row_ok s) srs)).
    - intros _. exists []. by rewrite app_nil_r.
    - intros done sn d1 Hdone. unfold gen_series.
      run_pure. intros series_id d2 [-> _].
      run_pure. intros plane d2 [-> _].
      eapply runs_conseq; [apply runs_execute|].
      intros [] d2 (Hp & Ho & Hst & Hse & Hr)%insert_series_tables.
      intros [Hall Hsn]%Forall_app. rewrite Forall_singleton in Hsn.
      destruct (Hdone Hall) as (srs & Hp1 & Ho1 & Hst1 & Hse1 & Hr1 & Hok).
      eexists (srs ++ [_]).
      rewrite Hp, Ho, Hst, Hse, Hr, Hse1, <- app_assoc.
      repeat (split; [done|]). apply Forall_app. split; [done|].
      apply Forall_singleton. split; [done|exact Hsn]. }
  intros [] d' Hpost. by apply Hpost.
Qed.

Lemma gen_report_rows w (s : Study.row) modality is_critical d :
  runs (gen_report w (Study.study_id s) modality (Study.body_part s)
          (Study.report_status s) is_critical) d
    (λ _ d', ∃ r,
       patients d' = patients d ∧ orders d' = orders d ∧ studies d' = studies d
       ∧ series d' = series d ∧ reports d' = reports d ++ [r]
       ∧ report_row_ok s r).
Proof.
  unfold gen_report.
  run_pure. intros base d1 [-> _].
  eapply (runs_bind _ _ _ (λ _ d', d' = d ∧ True)).
  { destruct is_critical.
    - run_pure. intros c d1 [-> _]. by apply runs_ret.
    - by apply runs_ret. }
  intros findings d1 [-> _].
  run_pure. intros rid d1 [-> _].
  run_pure. intros author d1 [-> Hauthor].
  run_pure. intros created d1 [-> _].
  run_pure. intros updated d1 [-> _].
  run_pure. intros r d1 [-> _].
  eapply runs_conseq; [apply runs_execute|].
  intros [] d' (Hp & Ho & Hst & Hse & Hr)%insert_report_tables.
  eexists. repeat (split; [done|]). by repeat split.
Qed.

(** what one study round writes *)
Lemma gen_study_rows w pid critical_pct d :
  runs (gen_study w pid critical_pct) d
    (λ _ d', ∃ o s srs rs,
       patients d' = patients d
       ∧ orders d' = orders d ++ [o]
       ∧ studies d' = studies d ++ [s]
       ∧ series d' = series d ++ srs
       ∧ reports d' = reports d ++ rs
       ∧ study_row_ok pid o s
       ∧ Forall (series_row_ok s) srs
       ∧ Forall (report_row_ok s) rs).
Proof.
  unfold gen_study.
  run_pure. intros [[[modality body_part] description] priority] d1 [-> Htmpl].
  run_pure. intros r d1 [-> _]. cbv zeta.
  set (is_critical := (r * 100 <? critical_pct * 2 ^ 53)%Z).
  run_pure. intros report_status d1 [-> Hstatus].
  run_pure. intros oid d1 [-> _].
  run_pure. intros sid d1 [-> _].
  run_pure. intros clinician d1 [-> _].
  run_pure. intros location d1 [-> _].
  run_pure. intros days d1 [-> _].
  run_pure. intros created d1 [-> _].
  eapply runs_bind; [apply runs_execute|].
  intros [] d1 (Hp1 & Ho1 & Hst1 & Hse1 & Hr1)%insert_order_tables.
  run_pure. intros days1 d2 [-> _].
  run_pure. intros scheduled d2 [-> _].
  run_pure. intros days2 d2 [-> _].
  run_pure. intros acquired d2 [-> _].
  run_pure. intros acc d2 [-> _].
  eapply runs_bind; [apply runs_execute|].
  intros [] d2 (Hp2 & Ho2 & Hst2 & Hse2 & Hr2)%insert_study_tables.
  match type of Hst2 with _ = _ ++ [?row] => set (s := row) in * end.
  match type of Ho1 with _ = _ ++ [?row] => set (o := row) in * end.
  assert (study_row_ok pid o s) as Hok.
  { unfold study_row_ok, s, o. simpl. repeat (split; [done|]).
    rewrite !elem_of_cons, elem_of_nil in Hstatus.
    rewrite !elem_of_cons, elem_of_nil.
    split; [tauto|]. split; [|done]. destruct is_critical; auto. }
  run_pure. intros n_series d3 [-> Hn].
  eapply runs_bind.
  { apply (gen_series_rows w s (seqZ 1 n_series)).
    apply Forall_forall. intros sn Hsn%elem_of_seqZ. lia. }
  intros [] d3 (srs & Hp3 & Ho3 & Hst3 & Hse3 & Hr3 & Hsrs).
  destruct (bool_decide (report_status ∈ _)).
  - eapply runs_conseq; [apply (gen_report_rows w s modality is_critical)|].
    intros [] d4 (rep & Hp4 & Ho4 & Hst4 & Hse4 & Hr4 & Hrep).
    exists o, s, srs, [rep].
    rewrite Hp4, Ho4, Hst4, Hse4, Hr4, Hp3, Ho3, Hst3, Hse3, Hr3,
      Hp2, Ho2, Hst2, Hse2, Hr2, Hp1, Ho1, Hst1, Hse1, Hr1.
    repeat (split; [done|]). by apply Forall_singleton.
  - apply runs_ret. exists o, s, srs, [].
    rewrite Hp3, Ho3, Hst3, Hse3, Hr3, Hp2, Ho2, Hst2, Hse2, Hr2,
      Hp1, Ho1, Hst1, Hse1, Hr1, app_nil_r.
    repeat (split; [done|]). constructor.
Qed.

(** one patient round keeps the account of what was appended *)
Lemma gen_patient_rows w studies_per_patient critical_pct counts d0 d
    ps os ss srs rs :
  generated_rows d0 d counts ps os ss srs rs →
  runs (gen_patient w studies_per_patient critical_pct counts) d
    (λ counts' d', ∃ ps' os' ss' srs' rs',
       generated_rows d0 d' counts' ps' os' ss' srs' rs').
Proof.
  intros (Hp & Ho & Hst & Hse & Hr & Hpc & Hsc & Hlen & Hss & Hsrs & Hrs).
  unfold gen_patient. destruct counts as [patients_created studies_created].
  simpl in Hpc, Hsc.
  run_pure. intros sex d1 [-> _].
  run_pure. intros fname d1 [-> _].
  run_pure. intros lname d1 [-> _].
  run_pure. intros pid d1 [-> _].
  run_pure. intros m d1 [-> _].
  run_pure. intros k1 d1 [-> _].
  run_pure. intros allergies d1 [-> _].
  run_pure. intros k2 d1 [-> _].
  run_pure. intros alerts d1 [-> _].
  run_pure. intros dob d1 [-> _].
  run_pure. intros p1 d1 [-> _].
  run_pure. intros p2 d1 [-> _].
  eapply runs_bind; [apply runs_try_execute|].
  intros ok d1 [[-> Hins]|[-> ->]].
  - apply insert_patient_Some in Hins as (Hp1 & Ho1 & Hst1 & Hse1 & Hr1 & _ & _).
    match type of Hp1 with _ = _ ++ [?row] => set (p := row) in * end.
    run_pure. intros n_studies d2 [-> _].
    eapply runs_bind.
    { apply (runs_for_range_acc _ _
               (λ n d', ∃ os' ss' srs' rs',
                  generated_rows d0 d' (patients_created + 1, n)%Z
                    (ps ++ [p]) os' ss' srs' rs')).
      - exists os, ss, srs, rs. unfold generated_rows. simpl.
        rewrite Hp1, Ho1, Hst1, Hse1, Hr1, Hp, Ho, Hst, Hse, Hr, <- app_assoc.
        repeat (split; [done|]).
        split; [rewrite length_app; simpl; lia|].
        repeat (split; [done|]).
        split; [|done]. intros s Hs. destruct (Hss s Hs) as (p' & o & Hp' & Ho' & Hok).
        exists p', o. rewrite elem_of_app. auto.
      - intros n d2 (os' & ss' & srs' & rs' & Hp2 & Ho2 & Hst2 & Hse2 & Hr2
                      & Hpc2 & Hsc2 & Hlen2 & Hss2 & Hsrs2 & Hrs2).
        simpl in Hpc2, Hsc2.
        eapply runs_bind; [apply gen_study_rows|].
        intros [] d3 (o & s & srs1 & rs1 & Hp3 & Ho3 & Hst3 & Hse3 & Hr3
                       & Hok & Hsrs3 & Hrs3).
        apply runs_ret.
        exists (os' ++ [o]), (ss' ++ [s]), (srs' ++ srs1), (rs' ++ rs1).
        unfold generated_rows. simpl.
        rewrite Hp3, Ho3, Hst3, Hse3, Hr3, Hp2, Ho2, Hst2, Hse2, Hr2, <- !app_assoc.
        repeat (split; [done|]).
        split; [rewrite length_app; simpl; lia|].
        split; [rewrite !length_app; simpl; lia|].
        split; [|split].
        + intros s' [Hs'|Hs']%elem_of_app.
          * destruct (Hss2 s' Hs') as (p' & o' & Hp' & Ho' & Hok').
            exists p', o'. split; [done|]. split; [|done].
            apply elem_of_app. by left.
          * apply list_elem_of_singleton in Hs' as ->.
            exists p, o. split; [|split; [|exact Hok]].
            -- apply elem_of_app. right. by apply list_elem_of_singleton.
            -- apply elem_of_app. right. by apply list_elem_of_singleton.
        + intros se [Hin|Hin]%elem_of_app.
          * destruct (Hsrs2 se Hin) as (s' & Hs' & Hok'). exists s'.
            rewrite elem_of_app. auto.
          * exists s. rewrite elem_of_app, list_elem_of_singleton.
            split; [auto|]. by eapply Forall_forall in Hsrs3.
        + intros r [Hin|Hin]%elem_of_app.
          * destruct (Hrs2 r Hin) as (s' & Hs' & Hok'). exists s'.
            rewrite elem_of_app. auto.
          * exists s. rewrite elem_of_app, list_elem_of_singleton.
            split; [auto|]. by eapply Forall_forall in Hrs3. }
    intros n d2 (os' & ss' & srs' & rs' & Hgen). apply runs_ret. eauto 10.
  - apply runs_ret. exists ps, os, ss, srs, rs. by repeat split.
Qed.

Lemma generate_rows w n_patients studies_per_patient critical_pct d counts d' :
  generate_patients_and_studies w n_patients studies_per_patient critical_pct d
  = Some (counts, d') →
  ∃ ps os ss srs rs, generated_rows d d' counts ps os ss srs rs.
Proof.
  unfold generate_patients_and_studies.
  destruct (for_range _ _ _ _) as [[c s]|] eqn:Hrun; [|done].
  intros [= <- <-].
  eapply (runs_for_range_acc _ _
            (λ c d', ∃ ps os ss srs rs, generated_rows d d' c ps os ss srs rs));
    [| |reflexivity|exact Hrun].
  - exists [], [], [], [], []. unfold generated_rows. rewrite !app_nil_r. simpl.
    repeat (split; [done|]). repeat split; intros x Hx; by apply elem_of_nil in Hx.
  - intros acc d1 (ps & os & ss & srs & rs & Hgen). by eapply gen_patient_rows.
Qed.

(** X15: a generator run that commits only appends rows, and its two counters
    are the numbers of patients and of studies appended; it appends one order
    per study, and every appended study names an appended patient and an
    appended order of that same patient, every appended series and report an
    appended study. *)
Theorem generator_links_rows (w : world)
    (n_patients studies_per_patient critical_pct : Z) (d d' : database)
    (patients_created studies_created : Z)
    (Hrun : generate_patients_and_studies w n_patients studies_per_patient
              critical_pct d = Some ((patients_created, studies_created), d')) :
  ∃ ps os ss srs rs,
    patients d' = patients d ++ ps ∧ orders d' = orders d ++ os
    ∧ studies d' = studies d ++ ss ∧ series d' = series d ++ srs
    ∧ reports d' = reports d ++ rs
    ∧ patients_created = Z.of_nat (length ps)
    ∧ studies_created = Z.of_nat (length ss)
    ∧ length os = length ss
    ∧ (∀ s, s ∈ ss → ∃ p o, p ∈ ps ∧ o ∈ os
         ∧ Study.patient_id s = Patient.patient_id p
         ∧ Study.order_id s = Order.order_id o
         ∧ Order.patient_id o = Patient.patient_id p)
    ∧ (∀ se, se ∈ srs → ∃ s, s ∈ ss ∧ Series.study_id se = Study.study_id s)
    ∧ (∀ r, r ∈ rs → ∃ s, s ∈ ss ∧ Report.study_id r = Study.study_id s).
Proof.
  apply generate_rows in Hrun
    as (ps & os & ss & srs & rs & Hp & Ho & Hst & Hse & Hr & Hpc & Hsc & Hlen
        & Hss & Hsrs & Hrs).
  exists ps, os, ss, srs, rs. repeat (split; [done|]). split; [|split].
  - intros s Hs. destruct (Hss s Hs) as (p & o & Hp' & Ho' & Hpid & Hopid & Hoid & _).
    exists p, o. auto.
  - intros se Hin. destruct (Hsrs se Hin) as (s & Hs & Hsid & _). eauto.
  - intros r Hin. destruct (Hrs r Hin) as (s & Hs & Hsid & _). eauto.
Qed.

Lemma generator_links_rows_witness :
  ∃ ps os ss srs rs,
    patients demo_generated = patients empty_db ++ ps
    ∧ orders demo_generated = orders empty_db ++ os
    ∧ studies demo_generated = studies empty_db ++ ss
    ∧ series demo_generated = series empty_db ++ srs
    ∧ reports demo_generated = reports empty_db ++ rs
    ∧ 2%Z = Z.of_nat (length ps)
    ∧ 5%Z = Z.of_nat (length ss)
    ∧ length os = length ss
    ∧ (∀ s, s ∈ ss → ∃ p o, p ∈ ps ∧ o ∈ os
         ∧ Study.patient_id s = Patient.patient_id p
         ∧ Study.order_id s = Order.order_id o
         ∧ Order.patient_id o = Patient.patient_id p)
    ∧ (∀ se, se ∈ srs → ∃ s, s ∈ ss ∧ Series.study_id se = Study.study_id s)
    ∧ (∀ r, r ∈ rs → ∃ s, s ∈ ss ∧ Report.study_id r = Study.study_id s).
Proof.
  apply (generator_links_rows demo_world 2 3 80). by vm_compute.
Defined.

(** X16: the values a generator run writes: each appended study takes its
    modality, body part and description, and its order the priority, from one
    row of STUDY_TEMPLATES; the order is Active with the indication built from
    that template; the study's report_status is one of Unreported, Preliminary
    and Final, its critical_flag 0 or 1 and its pacs_status Available; each
    appended series is numbered between 1 and 4; each appended report carries
    its study's report_status as sign_status, the indication built from the
    study's body part and an author from CLINICIANS. *)
Theorem generator_row_values (w : world)
    (n_patients studies_per_patient critical_pct : Z) (d d' : database)
    (counts : Z * Z)
    (Hrun : generate_patients_and_studies w n_patients studies_per_patient
              critical_pct d = Some (counts, d')) :
  ∃ os ss srs rs,
    orders d' = orders d ++ os ∧ studies d' = studies d ++ ss
    ∧ series d' = series d ++ srs ∧ reports d' = reports d ++ rs
    ∧ (∀ s, s ∈ ss → ∃ o, o ∈ os
         ∧ Study.order_id s = Order.order_id o
         ∧ (Study.modality s, Study.body_part s, Study.description s,
            Order.priority o) ∈ STUDY_TEMPLATES
         ∧ Order.indication o
           = order_indication (Study.body_part s) (Study.description s)
         ∧ Order.status o = "Active"
         ∧ Study.report_status s ∈ ["Unreported"; "Preliminary"; "Final"]
         ∧ (Study.critical_flag s = 0 ∨ Study.critical_flag s = 1)%Z
         ∧ Study.pacs_status s = "Available")
    ∧ (∀ se, se ∈ srs → 1 ≤ Series.series_number se ≤ 4)%Z
    ∧ (∀ r, r ∈ rs → ∃ s, s ∈ ss
         ∧ Report.study_id r = Study.study_id s
         ∧ Report.sign_status r = Study.report_status s
         ∧ Report.indication r = "Query " +:+ Study.body_part s +:+ " pathology"
         ∧ Report.author r ∈ CLINICIANS).
Proof.
  apply generate_rows in Hrun
    as (ps & os & ss & srs & rs & Hp & Ho & Hst & Hse & Hr & Hpc & Hsc & Hlen
        & Hss & Hsrs & Hrs).
  exists os, ss, srs, rs. repeat (split; [done|]). split; [|split].
  - intros s Hs.
    destruct (Hss s Hs) as (p & o & Hp' & Ho' & _ & _ & Hoid & Hrest).
    exists o. auto.
  - intros se Hin. destruct (Hsrs se Hin) as (s & Hs & _ & Hn). exact Hn.
  - intros r Hin. destruct (Hrs r Hin) as (s & Hs & Hok). exists s. auto.
Qed.

Lemma generator_row_values_witness :
  ∃ os ss srs rs,
    orders demo_generated = orders empty_db ++ os
    ∧ studies demo_generated = studies empty_db ++ ss
    ∧ series demo_generated = series empty_db ++ srs
    ∧ reports demo_generated = reports empty_db ++ rs
    ∧ (∀ s, s ∈ ss → ∃ o, o ∈ os
         ∧ Study.order_id s = Order.order_id o
         ∧ (Study.modality s, Study.body_part s, Study.description s,
            Order.priority o) ∈ STUDY_TEMPLATES
         ∧ Order.indication o
           = order_indication (Study.body_part s) (Study.description s)
         ∧ Order.status o = "Active"
         ∧ Study.report_status s ∈ ["Unreported"; "Preliminary"; "Final"]
         ∧ (Study.critical_flag s = 0 ∨ Study.critical_flag s = 1)%Z
         ∧ Study.pacs_status s = "Available")
    ∧ (∀ se, se ∈ srs → 1 ≤ Series.series_number se ≤ 4)%Z
    ∧ (∀ r, r ∈ rs → ∃ s, s ∈ ss
         ∧ Report.study_id r = Study.study_id s
         ∧ Report.sign_status r = Study.report_status s
         ∧ Report.indication r = "Query " +:+ Study.body_part s +:+ " pathology"
         ∧ Report.author r ∈ CLINICIANS).
Proof.
  apply (generator_row_values demo_world 2 3 80 _ _ (2, 5)%Z). by vm_compute.
Defined.

(** ** Generator: an empty range of studies per patient *)

Lemma runs_try_execute_raised ins d :
  runs (try_execute ins) d
    (λ ok d', (ok = true ∧ ins d = Some d') ∨ (ok = false ∧ d' = d ∧ ins d = None)).
Proof.
  intros s a s' <- Hrun. unfold try_execute in Hrun.
  destruct (ins (conn s)) as [d'|]; injection Hrun as <- <-; auto.
Qed.

(** with [studies_per_patient < 1] a patient round returns only when its
    INSERT was refused: [random.randint(1, studies_per_patient)] raises *)
Lemma gen_patient_empty_range w studies_per_patient critical_pct counts d :
  (studies_per_patient < 1)%Z →
  runs (gen_patient w studies_per_patient critical_pct counts) d
    (λ counts' d', counts' = counts ∧ d' = d ∧ patients d ≠ []).
Proof.
  intros Hspp. unfold gen_patient.
  destruct counts as [patients_created studies_created].
  run_pure. intros sex d1 [-> _].
  run_pure. intros fname d1 [-> _].
  run_pure. intros lname d1 [-> _].
  run_pure. intros pid d1 [-> _].
  run_pure. intros m d1 [-> _].
  run_pure. intros k1 d1 [-> _].
  run_pure. intros allergies d1 [-> _].
  run_pure. intros k2 d1 [-> _].
  run_pure. intros alerts d1 [-> _].
  run_pure. intros dob d1 [-> _].
  run_pure. intros p1 d1 [-> _].
  run_pure. intros p2 d1 [-> _].
  eapply runs_bind; [apply runs_try_execute_raised|].
  intros ok d1 [[-> Hins]|(-> & -> & Hins)].
  - unfold randint. destruct (Z.ltb_spec studies_per_patient 1); [|lia].
    intros s a s' _ Hrun. discriminate Hrun.
  - apply runs_ret. repeat split. intros Hnil.
    unfold insert_patient in Hins. rewrite Hnil in Hins. discriminate Hins.
Qed.

Lemma generate_empty_range w n_patients studies_per_patient critical_pct d :
  (studies_per_patient < 1)%Z →
  (∀ counts d',
     generate_patients_and_studies w n_patients studies_per_patient critical_pct d
     = Some (counts, d') →
     counts = (0, 0)%Z ∧ d' = d)
  ∧ (patients d = [] → (1 ≤ n_patients)%Z →
     generate_patients_and_studies w n_patients studies_per_patient critical_pct d
     = None).
Proof.
  intros Hspp. unfold generate_patients_and_studies. split.
  - intros counts d'.
    destruct (for_range _ _ _ _) as [[c s]|] eqn:Hrun; [|done].
    intros [= <- <-].
    eapply (runs_for_range_acc _ _ (λ c d', c = (0, 0)%Z ∧ d' = d));
      [| |reflexivity|exact Hrun]; [done|].
    intros acc d1 [-> ->].
    eapply runs_conseq; [by apply gen_patient_empty_range|].
    by intros c' d' (-> & -> & _).
  - intros Hnil Hn.
    destruct (Z.to_nat n_patients) as [|n] eqn:Hnat; [lia|].
    destruct (for_range _ _ _ _) as [[c s]|] eqn:Hrun; [|done].
    exfalso.
    assert (runs (for_range (S n) (gen_patient w studies_per_patient critical_pct)
                    (0, 0)%Z) d (λ _ _, False)) as Hraises.
    { change (for_range (S n) ?b ?a) with (b a ≫= for_range n b).
      eapply runs_bind; [by apply gen_patient_empty_range|].
      by intros c' d' (_ & _ & Hne). }
    exact (Hraises {| cursor := 0; conn := d |} c s eq_refl Hrun).
Qed.

(** X17: a generate request whose studies_per_patient is below 1 never
    changes the state: it answers with the two counters at 0 (when no patient
    could be inserted) or ends in a server error, because
    random.randint(1, studies_per_patient) raises after the first patient
    row is inserted and nothing is committed.  On a store without patients a
    request for at least one patient ends in the server error. *)
Theorem generate_data_empty_study_range (w : world) (data : gmap string Z)
    (token user : string) (st : state) (studies_per_patient : Z)
    (Hauth : SESSIONS st !! token = Some user)
    (Hkey : data !! "studies_per_patient" = Some studies_per_patient)
    (Hspp : (studies_per_patient < 1)%Z) :
  (generate_data w data token st).2 = st
  ∧ ((generate_data w data token st).1 = inr (Generated 0 0)
     ∨ (generate_data w data token st).1 = inl ServerError)
  ∧ (patients (db st) = [] → (1 ≤ default 50 (data !! "patients"))%Z →
     (generate_data w data token st).1 = inl ServerError).
Proof.
  unfold generate_data, verify_token. rewrite Hauth, Hkey.
  change (default 3%Z (Some studies_per_patient)) with studies_per_patient.
  destruct (generate_empty_range w (default 50%Z (data !! "patients"))
              studies_per_patient (default 15%Z (data !! "critical_pct")) (db st) Hspp)
    as [Hsome Hnone].
  destruct (generate_patients_and_studies _ _ _ _ _) as [[[pc sc] d']|] eqn:Hrun.
  - destruct (Hsome _ _ eq_refl) as [[= -> ->] ->]. simpl.
    split; [apply with_db_same|]. split; [by left|].
    intros Hnil Hn. by specialize (Hnone Hnil Hn).
  - simpl. auto.
Qed.

Lemma generate_data_empty_study_range_witness :
  (generate_data demo_world {[ "studies_per_patient" := 0%Z ]} "t0k3n"
     {| db := empty_db; SESSIONS := SESSIONS demo_state |}).1
  = inl ServerError.
Proof.
  apply (generate_data_empty_study_range demo_world
           {[ "studies_per_patient" := 0%Z ]} "t0k3n" "david"
           {| db := empty_db; SESSIONS := SESSIONS demo_state |} 0);
    [reflexivity | reflexivity | lia | reflexivity | by vm_compute].
Defined.

(** ** Import: the rows it writes *)

Lemma import_plan_length w rows : ∀ c, length (import_plan w c rows) = length rows.
Proof. induction rows as [|row rows IH]; intros c; simpl; [done|]. by rewrite IH. Qed.

(** the loop inserts, in order, some of the tuples it planned *)
Lemma import_rows_plan w rows : ∀ imported s,
  ∃ inserted s',
    import_rows w rows imported s = Some ((imported + Z.of_nat (length inserted))%Z, s')
    ∧ patients (conn s') = patients (conn s) ++ inserted
    ∧ inserted `sublist_of` import_plan w (cursor s) rows.
Proof.
  induction rows as [|row rows IH]; intros imported s.
  - exists [], s. simpl. rewrite Z.add_0_r, app_nil_r. split; [done|]. split; [done|].
    constructor.
  - rewrite import_rows_cons, import_row_run. cbv zeta.
    destruct (bound _ _ _) as [d|] eqn:Hins.
    + apply bound_Some in Hins as [_ Hins].
      apply insert_patient_Some in Hins as (Hp & _).
      destruct (IH (imported + 1)%Z {| cursor := S (S (cursor s)); conn := d |})
        as (inserted & s' & Hrun & Hp' & Hsub).
      eexists (_ :: inserted), s'. simpl in *.
      split; [rewrite Hrun; do 2 f_equal; lia|].
      split; [by rewrite Hp', Hp, <- app_assoc|].
      by apply sublist_skip.
    + destruct (IH imported {| cursor := S (S (cursor s)); conn := conn s |})
        as (inserted & s' & Hrun & Hp' & Hsub).
      exists inserted, s'. simpl in *. split; [done|]. split; [done|].
      by apply sublist_cons.
Qed.


(** X18: an authorised import builds each patient it inserts from one row of
    the batch, in the order of the batch: the patients appended are a
    subsequence of the planned tuples, each made of a fresh patient id, the
    row's mrn (or KCH and a random 7-digit number), the row's names, dob and
    sex (or Unknown, Unknown, 1970-01-01, U), an empty phone and empty JSON
    lists; so no more patients are inserted than the batch has rows. *)
Theorem import_inserts_planned_rows (w : world) (token : string)
    (rows : list (gmap string jval)) (st : state) (username : string) :
  SESSIONS st !! token = Some username →
  ∃ inserted st',
    import_data w token (Some rows) st
    = (inr (Imported (Z.of_nat (length inserted))), st')
    ∧ patients (db st') = patients (db st) ++ inserted
    ∧ inserted `sublist_of` import_plan w 0 rows
    ∧ (length inserted ≤ length rows)%nat
    ∧ ∀ p, p ∈ inserted →
        ∃ row pid m, row ∈ rows ∧ p = import_patient row pid m
                     ∧ (1000000 ≤ m ≤ 9999999)%Z.
Proof.
  intros Hauth. apply verify_token_present in Hauth.
  unfold import_data. rewrite Hauth.
  destruct (import_rows_plan w rows 0 {| cursor := 0; conn := db st |})
    as (inserted & s' & Hrun & Hp & Hsub).
  rewrite Hrun. simpl in *.
  exists inserted, (with_db st (conn s')).
  split; [done|]. split; [done|]. split; [done|].
  split; [apply sublist_length in Hsub; by rewrite import_plan_length in Hsub|].
  intros p Hin. eapply elem_of_sublist in Hin; [|exact Hsub].
  clear -Hin. generalize dependent 0%nat.
  induction rows as [|row rows IH]; intros c Hin; simpl in Hin.
  - by apply elem_of_nil in Hin.
  - apply elem_of_cons in Hin as [->|Hin].
    + eexists row, _, _. split; [by left|]. split; [reflexivity|].
      pose proof (Z.mod_pos_bound (entropy w (S c)) 9000000). lia.
    + destruct (IH _ Hin) as (row' & pid & m & Hrow & Hp & Hm).
      exists row', pid, m. split; [by right|done].
Qed.

Lemma import_inserts_planned_rows_witness :
  SESSIONS demo_state !! "t0k3n" = Some "david"
  ∧ ∃ inserted st',
      import_data demo_world "t0k3n" (Some demo_batch) demo_state
      = (inr (Imported (Z.of_nat (length inserted))), st')
      ∧ patients (db st') = patients (db demo_state) ++ inserted
      ∧ inserted `sublist_of` import_plan demo_world 0 demo_batch
      ∧ (length inserted ≤ length demo_batch)%nat
      ∧ ∀ p, p ∈ inserted →
          ∃ row pid m, row ∈ demo_batch ∧ p = import_patient row pid m
                       ∧ (1000000 ≤ m ≤ 9999999)%Z.
Proof.
  split; [reflexivity|].
  apply (import_inserts_planned_rows demo_world "t0k3n" demo_batch demo_state "david").
  reflexivity.
Defined.



(** ** Reports: creation, update and listing together *)

Lemma bind_filter_none {B C} (P : B → Prop) `{∀ x, Decision (P x)}
    (l : list B) (k : B → list C) :
  (∀ x, x ∈ l → ¬ P x) → (x ← filter P l; k x) = ([] : list C).
Proof.
  intros Hnone. induction l as [|x l IH]; [done|].
  rewrite filter_cons. destruct (decide (P x)) as [HP|_].
  - exfalso. apply (Hnone x); [by left|done].
  - apply IH. intros y Hy. apply Hnone. by right.
Qed.





Lemma create_report_keeps w data token st :
  SESSIONS (create_report w data token st).2 = SESSIONS st
  ∧ studies (db (create_report w data token st).2) = studies (db st).
Proof.
  unfold create_report. destruct (verify_token token st); [done|].
  destruct (data !! "study_id"); [|done].
  destruct (bound _ _ _) as [d|] eqn:Hins; [|done].
  apply bound_Some in Hins as [_ Hins]. unfold insert_report in Hins.
  destruct (bool_decide _); [done|]. by injection Hins as <-.
Qed.

Lemma get_study_unknown study_id token st username :
  SESSIONS st !! token = Some username →
  (∀ s, s ∈ studies (db st) → Study.study_id s ≠ study_id) →
  get_study study_id token st = (inl NotFound, st).
Proof.
  intros Hauth%verify_token_present Hunknown. unfold get_study. rewrite Hauth.
  cbv zeta.
  destruct (List.filter _ (join_studies _)) as [|j rest] eqn:Hf; [done|].
  exfalso. apply filter_head_elem in Hf as [Hin Heq]. apply String.eqb_eq in Heq.
  apply join_studies_spec in Hin as (Hs & _).
  by apply (Hunknown _ Hs).
Qed.

(** X22: a report created for a study_id that names no stored study is
    stored (when its values can be bound and its id is not taken), but
    nothing shows it: whatever the outcome of the call, the list of reports
    after it is the same as before it, and a get-study call for that id
    answers Not-Found. *)
Theorem create_report_unknown_study_unlisted (w : world) (data : gmap string jval)
    (token : string) (st : state) (username : string) (study_id : jval) :
  SESSIONS st !! token = Some username →
  data !! "study_id" = Some study_id →
  (∀ s, s ∈ studies (db st) → Study.study_id s ≠ to_text study_id) →
  (get_reports token (create_report w data token st).2).1 = (get_reports token st).1
  ∧ get_study (to_text study_id) token (create_report w data token st).2
    = (inl NotFound, (create_report w data token st).2)
  ∧ (forallb bindable (study_id :: report_params data) = true →
     uuid4 w 0 ∉ (Report.report_id <$> reports (db st)) →
     ∃ st' r,
       create_report w data token st = (inr (ReportSaved (uuid4 w 0)), st')
       ∧ reports (db st') = reports (db st) ++ [r]).
Proof.
  intros Hauth Hkey Hunknown.
  pose proof (verify_token_present _ _ _ Hauth) as Hverify.
  split; [|split].
  - unfold create_report. rewrite Hverify, Hkey.
    destruct (bound _ _ _) as [d|] eqn:Hins; [|done].
    apply bound_Some in Hins as [_ Hins]. unfold insert_report in Hins.
    destruct (bool_decide _); [done|]. injection Hins as <-.
    unfold get_reports, verify_token. simpl. rewrite Hauth. simpl.
    do 2 f_equal. rewrite bind_app. simpl.
    rewrite (bind_filter_none (λ s, to_text study_id = Study.study_id s)).
    + by rewrite !app_nil_r.
    + intros s Hs Heq. by apply (Hunknown s Hs).
  - apply (get_study_unknown _ _ _ username).
    + by rewrite (proj1 (create_report_keeps w data token st)).
    + intros s Hs. apply Hunknown.
      by rewrite (proj2 (create_report_keeps w data token st)) in Hs.
  - intros Hbind Hfresh.
    rewrite (create_report_bindable _ _ _ _ _ _ Hauth Hkey Hbind Hfresh).
    eexists _, _. split; reflexivity.
Qed.

Lemma create_report_unknown_study_unlisted_witness :
  ∃ st' r,
    create_report demo_world {[ "study_id" := JStr "no-such-study" ]} "t0k3n" demo_state
    = (inr (ReportSaved (uuid4 demo_world 0)), st')
    ∧ reports (db st') = reports (db demo_state) ++ [r]
    ∧ (get_reports "t0k3n" st').1 = (get_reports "t0k3n" demo_state).1
    ∧ get_study "no-such-study" "t0k3n" st' = (inl NotFound, st').
Proof.
  destruct (create_report_unknown_study_unlisted demo_world
              {[ "study_id" := JStr "no-such-study" ]} "t0k3n" demo_state "david"
              (JStr "no-such-study")) as (Hlist & Hstudy & Hstored).
  - reflexivity.
  - reflexivity.
  - apply Forall_forall. apply (bool_decide_unpack _). by vm_compute.
  - destruct Hstored as (st' & r & Hrun & Hrows).
    + reflexivity.
    + apply (bool_decide_unpack _). by vm_compute.
    + rewrite Hrun in Hlist, Hstudy. exists st', r. done.
Defined.

(** ** The patch script *)

Section PyStrFacts.
Context {A : Type} `{EqDecision A}.
Implicit Types old new s pre post : list A.

Lemma str_find_None old s :
  str_find old s = None ↔ ∀ pre post, s ≠ pre ++ old ++ post.
Proof.
  induction s as [|c s IH]; simpl.
  - destruct (bool_decide_reflect (old `prefix_of` [])) as [[k Hk]|Hno].
    + split; [done|]. intros Hall. exfalso. apply (Hall [] k). exact Hk.
    + split; [|done]. intros _ pre post Heq. apply Hno. exists post.
      destruct pre; [done|discriminate].
  - destruct (bool_decide_reflect (old `prefix_of` c :: s)) as [[k Hk]|Hno].
    + split; [done|]. intros Hall. exfalso. apply (Hall [] k). exact Hk.
    + rewrite fmap_None, IH. split.
      * intros Hall pre post Heq. destruct pre as [|c' pre].
        -- apply Hno. by exists post.
        -- injection Heq as -> Heq. by apply (Hall pre post).
      * intros Hall pre post ->. by apply (Hall (c :: pre) post).
Qed.

(** the first occurrence found by [str_find] *)
Lemma str_find_Some old s n :
  str_find old s = Some n →
  ∃ pre post, s = pre ++ old ++ post ∧ length pre = n
    ∧ ∀ k, (k < n)%nat → ¬ old `prefix_of` drop k s.
Proof.
  revert n. induction s as [|c s IH]; intros n; simpl.
  - destruct (bool_decide_reflect (old `prefix_of` [])) as [[k Hk]|Hno]; [|done].
    intros [= <-]. exists [], k. split; [done|]. split; [done|]. lia.
  - destruct (bool_decide_reflect (old `prefix_of` c :: s)) as [[k Hk]|Hno].
    + intros [= <-]. exists [], k. split; [done|]. split; [done|]. lia.
    + destruct (str_find old s) as [m|] eqn:Hm; [|done]. intros [= <-].
      destruct (IH m eq_refl) as (pre & post & -> & Hlen & Hfirst).
      exists (c :: pre), post. split; [done|]. split; [simpl; lia|].
      intros [|k] Hk; [done|]. simpl. apply Hfirst. lia.
Qed.

Lemma str_replace_nonempty old new s :
  old ≠ [] → str_replace old new s = replace_from old new 0 s.
Proof. by destruct old. Qed.

Lemma replace_from_skip old new pre s :
  replace_from old new (length pre) (pre ++ s) = replace_from old new 0 s.
Proof. induction pre as [|c pre IH]; [by destruct s|]. simpl. exact IH. Qed.

Lemma replace_from_match old new post :
  old ≠ [] →
  replace_from old new 0 (old ++ post) = new ++ replace_from old new 0 post.
Proof.
  intros Hne. destruct old as [|c old]; [done|]. simpl.
  rewrite bool_decide_eq_true_2 by (by exists post).
  f_equal. rewrite Nat.sub_0_r. apply replace_from_skip.
Qed.

Lemma replace_from_before old new pre s :
  (∀ k, (k < length pre)%nat → ¬ old `prefix_of` drop k (pre ++ s)) →
  replace_from old new 0 (pre ++ s) = pre ++ replace_from old new 0 s.
Proof.
  induction pre as [|c pre IH]; intros Hfirst; [done|]. simpl.
  rewrite bool_decide_eq_false_2 by (apply (Hfirst 0%nat); simpl; lia).
  f_equal. apply IH. intros k Hk. apply (Hfirst (S k)). simpl. lia.
Qed.

Lemma replace_from_absent old new s :
  (∀ pre post, s ≠ pre ++ old ++ post) → replace_from old new 0 s = s.
Proof.
  intros Habsent. rewrite <- (app_nil_r s) at 1.
  rewrite replace_from_before; [by rewrite app_nil_r|].
  intros k _ [post Hpost]. rewrite app_nil_r in Hpost.
  apply (Habsent (take k s) post). by rewrite <- Hpost, take_drop.
Qed.

Lemma replace_from_length old new :
  (length old ≤ length new)%nat → old ≠ [] →
  ∀ s skip, (length s ≤ skip + length (replace_from old new skip s))%nat.
Proof.
  intros Hlen Hne. induction s as [|c s IH]; intros skip; simpl; [lia|].
  destruct skip as [|k].
  - destruct (bool_decide _).
    + rewrite length_app. specialize (IH (length old - 1)%nat).
      destruct old; [done|]. simpl in *. lia.
    + simpl. specialize (IH 0%nat). lia.
  - specialize (IH k). lia.
Qed.

(** replacing [old] by [ins ++ old]: a text that has [old] gets longer by at
    least [ins], and still has [old] *)
Lemma str_replace_grows old ins s pre post :
  old ≠ [] → s = pre ++ old ++ post →
  (length s + length ins ≤ length (str_replace old (ins ++ old) s))%nat
  ∧ ∃ pre' post', str_replace old (ins ++ old) s = pre' ++ old ++ post'.
Proof.
  intros Hne Hs.
  destruct (str_find old s) as [n|] eqn:Hfind.
  2: { exfalso. by eapply str_find_None. }
  apply str_find_Some in Hfind as (pre1 & post1 & -> & Hn & Hfirst).
  rewrite str_replace_nonempty by done.
  rewrite replace_from_before by (by rewrite Hn).
  rewrite replace_from_match by done. split.
  - pose proof (replace_from_length old (ins ++ old)) as Hlen.
    rewrite length_app in Hlen. specialize (Hlen ltac:(lia) Hne post1 0%nat).
    rewrite !length_app. simpl in Hlen. lia.
  - exists (pre1 ++ ins), (replace_from old (ins ++ old) 0 post1).
    by rewrite <- !app_assoc.
Qed.

End PyStrFacts.

Lemma main_guard_nonempty : main_guard ≠ [].
Proof. discriminate. Qed.

(** X23: on a text without the line [if __name__ == "__main__":] the patch
    script writes the text back as it read it. *)
Theorem fix_backend_without_guard (content : list N) :
  (∀ pre post, content ≠ pre ++ main_guard ++ post) →
  fix_backend content = content.
Proof.
  intros Habsent. unfold fix_backend.
  rewrite str_replace_nonempty by apply main_guard_nonempty.
  by apply replace_from_absent.
Qed.

Lemma fix_backend_without_guard_witness :
  fix_backend (codepoints "import uvicorn") = codepoints "import uvicorn".
Proof.
  apply fix_backend_without_guard.
  apply str_find_None. by vm_compute.
Defined.

(** X24: on a text whose first occurrence of the guard line is its only one
    (none starts before it, none lies after it), the script inserts the new
    endpoint right before that line and changes nothing else. *)
Theorem fix_backend_inserts_before_guard (pre post : list N) :
  str_find main_guard (pre ++ main_guard ++ post) = Some (length pre) →
  (∀ pre' post', post ≠ pre' ++ main_guard ++ post') →
  fix_backend (pre ++ main_guard ++ post)
  = pre ++ new_endpoint ++ main_guard ++ post.
Proof.
  intros Hfind Habsent. unfold fix_backend.
  rewrite str_replace_nonempty by apply main_guard_nonempty.
  apply str_find_Some in Hfind as (pre1 & post1 & Heq & Hlen & Hfirst).
  rewrite replace_from_before by exact Hfirst.
  rewrite replace_from_match by apply main_guard_nonempty.
  rewrite replace_from_absent by exact Habsent.
  by rewrite <- !app_assoc.
Qed.

Lemma fix_backend_inserts_before_guard_witness :
  fix_backend (codepoints "x = 1
" ++ main_guard ++ codepoints "
    run()")
  = codepoints "x = 1
" ++ new_endpoint ++ main_guard ++ codepoints "
    run()".
Proof.
  apply fix_backend_inserts_before_guard.
  - by vm_compute.
  - apply str_find_None. by vm_compute.
Defined.

(** X25: the script is not idempotent: on a text that has the guard line, a
    run makes the text longer by at least the new endpoint and leaves the
    guard line in it, so a second run adds the endpoint again and never
    gives the text of the first run back. *)
Theorem fix_backend_not_idempotent (content pre post : list N) :
  content = pre ++ main_guard ++ post →
  (length content + length new_endpoint ≤ length (fix_backend content))%nat
  ∧ (length (fix_backend content) + length new_endpoint
     ≤ length (fix_backend (fix_backend content)))%nat
  ∧ fix_backend (fix_backend content) ≠ fix_backend content.
Proof.
  intros Hcontent. unfold fix_backend.
  destruct (str_replace_grows main_guard new_endpoint content pre post
              main_guard_nonempty Hcontent) as (Hlen & pre' & post' & Hagain).
  destruct (str_replace_grows main_guard new_endpoint _ pre' post'
              main_guard_nonempty Hagain) as (Hlen' & _).
  split; [exact Hlen|]. split; [exact Hlen'|].
  intros Heq. rewrite Heq in Hlen'.
  assert (0 < length new_endpoint)%nat by (vm_compute; lia). lia.
Qed.

Lemma fix_backend_not_idempotent_witness :
  fix_backend (fix_backend (main_guard ++ codepoints " main()"))
  ≠ fix_backend (main_guard ++ codepoints " main()").
Proof.
  apply (fix_backend_not_idempotent (main_guard ++ codepoints " main()") []
           (codepoints " main()")).
  reflexivity.
Defined.

(** ** Assistant endpoints *)

(** X26: with a valid token the assistant's query endpoint never ends in an
    error: when the provider call raises, it answers normally with the text
    "ARIA is temporarily unavailable: " followed by the exception's text.
    The other three assistant endpoints end in a server error exactly when
    their provider call raises.  None of the four changes the state. *)
Theorem aria_query_degrades_others_fail (w : world) (data : gmap string jval)
    (audio token : string) (st : state) (username : string) :
  SESSIONS st !! token = Some username →
  (∃ text, aria_query w data token st = (inr (AriaResponse text), st)
     ∧ ∀ e, chat_completions w "gpt-4o"
              [ ("system", ARIA_SYSTEM_PROMPT); ("user", get_text data "query" "") ] 400
            = inl e →
            text = "ARIA is temporarily unavailable: " +:+ e)
  ∧ (aria_assist_report w data token st).2 = st
  ∧ ((aria_assist_report w data token st).1 = inl ServerError
     ↔ ∃ e, chat_completions w "gpt-4o" [ ("user", assist_prompt data) ] 500 = inl e)
  ∧ (aria_transcribe w audio token st).2 = st
  ∧ ((aria_transcribe w audio token st).1 = inl ServerError
     ↔ ∃ e, transcriptions w "whisper-1" audio "en" = inl e)
  ∧ (aria_speak w data token st).2 = st
  ∧ ((aria_speak w data token st).1 = inl ServerError
     ↔ ∃ e, speech w "tts-1" (get_text data "voice" "nova") (get_text data "text" "")
            = inl e).
Proof.
  intros Hauth%verify_token_present.
  unfold aria_query, aria_assist_report, aria_transcribe, aria_speak.
  rewrite Hauth. cbv zeta.
  split; [|repeat split].
  - destruct (chat_completions w "gpt-4o" _ 400) as [e|content].
    + eexists. split; [reflexivity|]. by intros e' [= <-].
    + eexists. split; [reflexivity|]. done.
  - by destruct (chat_completions w "gpt-4o" _ 500).
  - destruct (chat_completions w "gpt-4o" _ 500); [eauto|done].
  - by intros [e ->].
  - by destruct (transcriptions _ _ _ _).
  - destruct (transcriptions _ _ _ _); [eauto|done].
  - by intros [e ->].
  - by destruct (speech _ _ _ _).
  - destruct (speech _ _ _ _); [eauto|done].
  - by intros [e ->].
Qed.

Lemma aria_query_degrades_others_fail_witness :
  aria_query demo_world {[ "query" := JStr "Any critical studies?" ]} "t0k3n" demo_state
  = (inr (AriaResponse "ARIA is temporarily unavailable: provider offline"), demo_state)
  ∧ (aria_speak demo_world {[ "text" := JStr "Hello" ]} "t0k3n" demo_state).1
    = inl ServerError.
Proof.
  destruct (aria_query_degrades_others_fail demo_world
              {[ "query" := JStr "Any critical studies?" ]} "" "t0k3n" demo_state "david")
    as ((text & Hquery & Htext) & _); [reflexivity|].
  split.
  - rewrite Hquery. by rewrite (Htext "provider offline").
  - reflexivity.
Defined.
